(** * passport-amazon-token: the Amazon access-token strategy

    A shallow embedding of [lib/Strategy.js] (the current strategy) and of the
    second, older copy of the same file, together with the properties of
    [authenticate], [verified] and [userProfile].

    JavaScript values are a first-order data type; callbacks are Rocq
    functions; the calls the strategy makes to its host (passport's [success],
    [fail], [error]), to the OAuth2 client and to the application's verify
    callback are recorded as a trace of events, and exceptions are explicit. *)

From Stdlib Require Import List String Ascii ZArith Bool Lia DecimalString.
Import ListNotations.
Local Open Scope string_scope.
Local Open Scope list_scope.

Set Warnings "-register-all".

(** ** JavaScript values *)

(** The values that reach the strategy: primitives, plain objects (own
    properties in insertion order), arrays (elements, plus own properties set
    on the array object), and the three kinds of error object the code meets:
    the [SyntaxError] of [JSON.parse], the [TypeError] of a property access on
    [null] or [undefined], and passport-oauth's
    [InternalOAuthError(message, err)].  Numbers are the integers. *)
Inductive value : Type :=
| VUndefined
| VNull
| VBool (b : bool)
| VNum (n : Z)
| VStr (s : string)
| VObj (props : list (string * value))
| VArr (elems : list value) (props : list (string * value))
| VSyntaxError
| VTypeError
| VInternalOAuthError (message oauthError : value).

Definition is_empty (s : string) : bool :=
  match s with EmptyString => true | String _ _ => false end.

(** ToBoolean: [undefined], [null], [false], [0] and the empty string are
    falsy, every object is truthy. *)
Definition truthy (v : value) : bool :=
  match v with
  | VUndefined | VNull => false
  | VBool b => b
  | VNum n => negb (n =? 0)%Z
  | VStr s => negb (is_empty s)
  | _ => true
  end.

(** Own properties: lookup and assignment on an insertion-ordered list. *)
Fixpoint lookup (k : string) (props : list (string * value)) : option value :=
  match props with
  | [] => None
  | (k', v) :: rest => if String.eqb k k' then Some v else lookup k rest
  end.

Fixpoint assign (k : string) (v : value) (props : list (string * value))
  : list (string * value) :=
  match props with
  | [] => [(k, v)]
  | (k', v') :: rest =>
      if String.eqb k k' then (k, v) :: rest else (k', v') :: assign k v rest
  end.

Definition own (k : string) (props : list (string * value)) : value :=
  match lookup k props with Some v => v | None => VUndefined end.

(** The property read [v.k], for a name [k] that is neither an array index nor
    [length] nor a method of a built-in prototype; every name the strategy
    reads is of that kind.  On [null] and [undefined] the read throws in
    JavaScript: see [get_member]; here it is [undefined]. *)
Definition get_prop (v : value) (k : string) : value :=
  match v with
  | VObj props => own k props
  | VArr _ props => own k props
  | VInternalOAuthError m e =>
      if String.eqb k "message" then m
      else if String.eqb k "oauthError" then e
      else if String.eqb k "name" then VStr "InternalOAuthError"
      else VUndefined
  | VSyntaxError => if String.eqb k "name" then VStr "SyntaxError" else VUndefined
  | VTypeError => if String.eqb k "name" then VStr "TypeError" else VUndefined
  | _ => VUndefined
  end.

(** The assignment [v[k] = x] in sloppy mode (the file has no strict-mode
    directive), as the value of [v] afterwards: an object or array gets the
    property, an assignment to a primitive is dropped. *)
Definition set_prop (v : value) (k : string) (x : value) : value :=
  match v with
  | VObj props => VObj (assign k x props)
  | VArr elems props => VArr elems (assign k x props)
  | _ => v
  end.

Definition nullish (v : value) : bool :=
  match v with VUndefined | VNull => true | _ => false end.

(** ** Exceptions and the trace of calls *)

Inductive result (A : Type) : Type :=
| Ret (a : A)
| Throw (e : value).
Arguments Ret {A} a.
Arguments Throw {A} e.

(** A request as the host passes it: [req.body], [req.query], [req.headers]. *)
Record request : Type := Request {
  body : value;
  query : value;
  headers : value
}.

(** The two argument lists [_verify] is called with (the continuation
    [verified] is the last argument of both). *)
Inductive verify_args : Type :=
| WithReq (req : request) (accessToken refreshToken profile : value)
| WithoutReq (accessToken refreshToken profile : value).

Inductive event : Type :=
| Get (url accessToken : value)
| Verify (args : verify_args)
| Success (user info : value)
| Fail (info : value)
| Error (err : value).

(** A computation: the calls it made, in order, and how it ended. *)
Definition M (A : Type) : Type := (list event * result A)%type.

Definition ret {A} (a : A) : M A := ([], Ret a).
Definition throw {A} (e : value) : M A := ([], Throw e).
Definition emit (ev : event) : M unit := ([ev], Ret tt).

Definition bind {A B} (m : M A) (f : A -> M B) : M B :=
  match m with
  | (t, Ret a) => let (t', r) := f a in (t ++ t', r)
  | (t, Throw e) => (t, Throw e)
  end.

(** [try { m } catch (e) { h e }] *)
Definition try_catch {A} (m : M A) (h : value -> M A) : M A :=
  match m with
  | (t, Ret a) => (t, Ret a)
  | (t, Throw e) => let (t', r) := h e in (t ++ t', r)
  end.

Notation "x <- m ;; k" := (bind m (fun x => k))
  (at level 61, m at next level, right associativity).
Notation "m ;;; k" := (bind m (fun _ => k))
  (at level 61, right associativity).

Definition trace {A} (m : M A) : list event := fst m.
Definition outcome_of {A} (m : M A) : result A := snd m.

(** The member read [v.k] as an expression: a [TypeError] on [null] and
    [undefined]. *)
Definition get_member (v : value) (k : string) : M value :=
  if nullish v then throw VTypeError else ret (get_prop v k).

(** The member assignment [v[k] = x]: a [TypeError] on [null] and
    [undefined]; returns [v] as it is afterwards. *)
Definition set_member (v : value) (k : string) (x : value) : M value :=
  if nullish v then throw VTypeError else ret (set_prop v k x).

Definition is_outcome (ev : event) : bool :=
  match ev with
  | Success _ _ | Fail _ | Error _ => true
  | _ => false
  end.

Definition outcomes (t : list event) : list event := filter is_outcome t.

(** ** JSON texts

    A reader for JSON texts, used to run the strategy on concrete payloads.
    It covers objects, arrays, strings with the two-character escapes, the
    three literals and integer numbers; a fraction, an exponent or a [\u]
    escape is outside it.  A repeated key keeps its last value, as in
    [JSON.parse]. *)

Definition dquote : ascii := "034"%char.
Definition backslash : ascii := "092"%char.

Definition is_ws (c : ascii) : bool :=
  Ascii.eqb c " " || Ascii.eqb c "009" || Ascii.eqb c "010" || Ascii.eqb c "013".

Fixpoint skip_ws (s : string) : string :=
  match s with
  | String c rest => if is_ws c then skip_ws rest else s
  | EmptyString => s
  end.

Definition digit_of (c : ascii) : option Z :=
  let n := nat_of_ascii c in
  if (48 <=? n)%nat && (n <=? 57)%nat then Some (Z.of_nat (n - 48)) else None.

Fixpoint read_digits (acc : Z) (s : string) : Z * string :=
  match s with
  | String c rest =>
      match digit_of c with
      | Some d => read_digits (10 * acc + d) rest
      | None => (acc, s)
      end
  | EmptyString => (acc, s)
  end.

Definition starts_fraction (s : string) : bool :=
  match s with
  | String c _ => Ascii.eqb c "." || Ascii.eqb c "e" || Ascii.eqb c "E"
  | EmptyString => false
  end.

(** [int]: a single [0], or a digit [1]..[9] followed by digits. *)
Definition read_nat (s : string) : option (Z * string) :=
  match s with
  | String c rest =>
      match digit_of c with
      | Some d =>
          let (n, rest') := if (d =? 0)%Z then (0%Z, rest) else read_digits d rest in
          if starts_fraction rest' then None else Some (n, rest')
      | None => None
      end
  | EmptyString => None
  end.

Definition unescape (c : ascii) : option ascii :=
  if Ascii.eqb c dquote then Some dquote
  else if Ascii.eqb c backslash then Some backslash
  else if Ascii.eqb c "/" then Some "/"%char
  else if Ascii.eqb c "b" then Some "008"%char
  else if Ascii.eqb c "f" then Some "012"%char
  else if Ascii.eqb c "n" then Some "010"%char
  else if Ascii.eqb c "r" then Some "013"%char
  else if Ascii.eqb c "t" then Some "009"%char
  else None.

Definition push (c : ascii) (r : option (string * string)) : option (string * string) :=
  match r with
  | Some (s, rest) => Some (String c s, rest)
  | None => None
  end.

(** The characters of a string literal, after its opening quote. *)
Fixpoint read_chars (s : string) : option (string * string) :=
  match s with
  | EmptyString => None
  | String c rest =>
      if Ascii.eqb c dquote then Some (EmptyString, rest)
      else if Ascii.eqb c backslash then
        match rest with
        | String e rest' =>
            match unescape e with
            | Some c' => push c' (read_chars rest')
            | None => None
            end
        | EmptyString => None
        end
      else if (nat_of_ascii c <? 32)%nat then None
      else push c (read_chars rest)
  end.

Fixpoint strip (word s : string) : option string :=
  match word, s with
  | EmptyString, _ => Some s
  | String w word', String c rest => if Ascii.eqb w c then strip word' rest else None
  | String _ _, EmptyString => None
  end.

Fixpoint read_value (fuel : nat) (s : string) : option (value * string) :=
  match fuel with
  | O => None
  | S fuel' =>
      match skip_ws s with
      | EmptyString => None
      | String c rest =>
          if Ascii.eqb c "{" then
            match skip_ws rest with
            | String c' rest' =>
                if Ascii.eqb c' "}" then Some (VObj [], rest')
                else read_members fuel' [] rest
            | EmptyString => None
            end
          else if Ascii.eqb c "[" then
            match skip_ws rest with
            | String c' rest' =>
                if Ascii.eqb c' "]" then Some (VArr [] [], rest')
                else read_elements fuel' [] rest
            | EmptyString => None
            end
          else if Ascii.eqb c dquote then
            match read_chars rest with
            | Some (str, rest') => Some (VStr str, rest')
            | None => None
            end
          else if Ascii.eqb c "-" then
            match read_nat rest with
            | Some (n, rest') => Some (VNum (- n), rest')
            | None => None
            end
          else if Ascii.eqb c "n" then
            match strip "ull" rest with
            | Some rest' => Some (VNull, rest')
            | None => None
            end
          else if Ascii.eqb c "t" then
            match strip "rue" rest with
            | Some rest' => Some (VBool true, rest')
            | None => None
            end
          else if Ascii.eqb c "f" then
            match strip "alse" rest with
            | Some rest' => Some (VBool false, rest')
            | None => None
            end
          else
            match read_nat (String c rest) with
            | Some (n, rest') => Some (VNum n, rest')
            | None => None
            end
      end
  end

with read_elements (fuel : nat) (acc : list value) (s : string)
  : option (value * string) :=
  match fuel with
  | O => None
  | S fuel' =>
      match read_value fuel' s with
      | Some (v, rest) =>
          match skip_ws rest with
          | String c rest' =>
              if Ascii.eqb c "," then read_elements fuel' (acc ++ [v]) rest'
              else if Ascii.eqb c "]" then Some (VArr (acc ++ [v]) [], rest')
              else None
          | EmptyString => None
          end
      | None => None
      end
  end

with read_members (fuel : nat) (acc : list (string * value)) (s : string)
  : option (value * string) :=
  match fuel with
  | O => None
  | S fuel' =>
      match skip_ws s with
      | String q rest =>
          if Ascii.eqb q dquote then
            match read_chars rest with
            | Some (key, rest1) =>
                match skip_ws rest1 with
                | String c rest2 =>
                    if Ascii.eqb c ":" then
                      match read_value fuel' rest2 with
                      | Some (v, rest3) =>
                          match skip_ws rest3 with
                          | String c' rest4 =>
                              if Ascii.eqb c' "," then
                                read_members fuel' (assign key v acc) rest4
                              else if Ascii.eqb c' "}" then
                                Some (VObj (assign key v acc), rest4)
                              else None
                          | EmptyString => None
                          end
                      | None => None
                      end
                    else None
                | EmptyString => None
                end
            | None => None
            end
          else None
      | EmptyString => None
      end
  end.

(** A whole text: one value, with white space around it and nothing else. *)
Definition json_parse (s : string) : option value :=
  match read_value (2 * String.length s + 2) s with
  | Some (v, rest) => if is_empty (skip_ws rest) then Some v else None
  | None => None
  end.

Fixpoint join (parts : list string) : string :=
  match parts with
  | [] => EmptyString
  | [p] => p
  | p :: rest => p ++ "," ++ join rest
  end.

(** ToString, which [JSON.parse] applies to its argument.  An error object is
    rendered by its name alone: with or without its message the text is not
    a JSON text. *)
Fixpoint ToString (v : value) : string :=
  match v with
  | VUndefined => "undefined"
  | VNull => "null"
  | VBool true => "true"
  | VBool false => "false"
  | VNum n => NilZero.string_of_int (Z.to_int n)
  | VStr s => s
  | VObj _ => "[object Object]"
  | VArr elems _ =>
      join (map (fun e => if nullish e then EmptyString else ToString e) elems)
  | VSyntaxError => "SyntaxError"
  | VTypeError => "TypeError"
  | VInternalOAuthError _ _ => "InternalOAuthError"
  end.

(** [JSON.parse(v)] on the texts [json_parse] covers; [None] is the
    [SyntaxError]. *)
Definition JSON_parse_text (v : value) : option value := json_parse (ToString v).

(** Writing a JSON text: a string literal in double quotes. *)
Definition quoted (s : string) : string :=
  String dquote (s ++ String dquote EmptyString).

(** [a || b] and the guarded read [loc && loc.k].  In the second the read is
    reached only for a truthy [loc], where it cannot throw. *)
Definition or_else (a b : value) : value := if truthy a then a else b.

Definition guarded (loc : value) (k : string) : value :=
  if truthy loc then get_prop loc k else loc.

(** ** The strategy object *)

(** The application's verify callback, by what it does when called: the
    invocations [(error, user, info)] of its continuation, in the order made,
    and the value it throws, if it throws.  A missing trailing argument is
    [undefined]. *)
Definition verify_callback : Type :=
  verify_args -> list (value * value * value) * option value.

(** The OAuth2 client of the base class (package oauth, outside this
    repository): [reply url accessToken] is the [(error, body)] its [get]
    reports to the callback; [get] reports once. *)
Record OAuth2 : Type := {
  _authorizeUrl : value;
  _accessTokenUrl : value;
  _useAuthorizationHeaderForGET : bool;
  reply : value -> value -> value * value
}.

Record Strategy : Type := {
  name : string;
  _profileURL : value;
  _passReqToCallback : value;
  _oauth2 : OAuth2;
  _verify : verify_callback
}.

(** [this._oauth2.get(url, accessToken, callback)] *)
Definition oauth2_get (c : OAuth2) (url accessToken : value)
    (callback : value -> value -> M unit) : M unit :=
  emit (Get url accessToken) ;;;
  let (error, body) := reply c url accessToken in
  callback error body.

(** [self._verify(..., verified)]: the continuation is run at each invocation
    the callback makes, then the callback's own exception, if any, is raised
    to the caller. *)
Fixpoint invoke (verified : value -> value -> value -> M unit)
    (calls : list (value * value * value)) : M unit :=
  match calls with
  | [] => ret tt
  | (error, user, info) :: rest =>
      verified error user info ;;; invoke verified rest
  end.

Definition call_verify (self : Strategy) (args : verify_args)
    (verified : value -> value -> value -> M unit) : M unit :=
  emit (Verify args) ;;;
  let (calls, thrown) := _verify self args in
  invoke verified calls ;;;
  match thrown with
  | Some e => throw e
  | None => ret tt
  end.

(** The outcome callbacks the host installs on the strategy. *)
Definition success (user info : value) : M unit := emit (Success user info).
Definition fail (info : value) : M unit := emit (Fail info).
Definition error (err : value) : M unit := emit (Error err).

(** ** authenticate (the same text in both copies of the file) *)

Definition missing_token : value :=
  VObj [("message", VStr "You should provide access_token")].

(** [function verified(error, user, info)] *)
Definition verified (error_ user info : value) : M unit :=
  if truthy error_ then error error_
  else if negb (truthy user) then fail info
  else success user info.

Section Authenticate.

(** [self.userProfile], the method the inherited [_loadUserProfile] calls. *)
Variable userProfile :
  Strategy -> value -> (value -> value -> M unit) -> M unit.

(** [OAuth2Strategy.prototype._loadUserProfile] of passport-oauth, with
    profile loading left on (its default): it hands over to
    [self.userProfile(accessToken, done)]. *)
Definition _loadUserProfile (self : Strategy) (accessToken : value)
    (done : value -> value -> M unit) : M unit :=
  userProfile self accessToken done.

Definition accessToken_of (req : request) : value :=
  or_else (or_else (guarded (body req) "access_token")
                   (guarded (query req) "access_token"))
          (guarded (headers req) "access_token").

Definition refreshToken_of (req : request) : value :=
  or_else (or_else (guarded (body req) "refresh_token")
                   (guarded (query req) "refresh_token"))
          (guarded (headers req) "refresh_token").

Definition authenticate (self : Strategy) (req : request) : M unit :=
  let accessToken := accessToken_of req in
  let refreshToken := refreshToken_of req in
  if negb (truthy accessToken) then fail missing_token
  else
    _loadUserProfile self accessToken (fun error_ profile =>
      if truthy error_ then error error_
      else if truthy (_passReqToCallback self)
      then call_verify self (WithReq req accessToken refreshToken profile) verified
      else call_verify self (WithoutReq accessToken refreshToken profile) verified).

End Authenticate.

(** [JSON.parse(text)] as an expression, for the runtime's [JSON.parse] given
    as a function; [None] is its [SyntaxError]. *)
Definition parse (JSON_parse : value -> option value) (text : value) : M value :=
  match JSON_parse text with
  | Some json => ret json
  | None => throw VSyntaxError
  end.

(** ** lib/Strategy.js *)

Module Current.
Section Runtime.

Variable JSON_parse : value -> option value.

(** The constructor.  [OAuth2Strategy.call(this, options, _verify)] stores
    the verify callback and builds the OAuth2 client from the two URLs; the
    argument checks of the base constructor are left out.  [net] is what
    the client's requests will report. *)
Definition AmazonTokenStrategy (_options : value) (verify : verify_callback)
    (net : value -> value -> value * value) : Strategy :=
  let options := or_else _options (VObj []) in
  let options := set_prop options "authorizationURL"
    (or_else (get_prop options "authorizationURL")
             (VStr "https://www.amazon.com/ap/oa")) in
  let options := set_prop options "tokenURL"
    (or_else (get_prop options "tokenURL")
             (VStr "https://api.amazon.com/auth/o2/token")) in
  let options := set_prop options "profileURL"
    (or_else (get_prop options "profileURL")
             (VStr "https://api.amazon.com/user/profile")) in
  {| name := "amazon-token";
     _profileURL := get_prop options "profileURL";
     _passReqToCallback := get_prop options "passReqToCallback";
     _oauth2 := {| _authorizeUrl := get_prop options "authorizationURL";
                   _accessTokenUrl := get_prop options "tokenURL";
                   _useAuthorizationHeaderForGET := true;
                   reply := net |};
     _verify := verify |}.

(** The body of the second [try], after [JSON.parse]: copy [user_id] to
    [id], build the profile.  Both sides of [json['id'] = json.user_id]
    throw the same [TypeError] on [null]. *)
Definition profile_from (body json : value) : M value :=
  user_id <- get_member json "user_id" ;;
  json <- set_member json "id" user_id ;;
  id <- get_member json "id" ;;
  displayName <- get_member json "name" ;;
  email <- get_member json "email" ;;
  ret (VObj [("provider", VStr "amazon");
             ("id", id);
             ("displayName", displayName);
             ("name", VObj [("familyName", VStr EmptyString);
                            ("givenName", VStr EmptyString)]);
             ("emails", VArr [VObj [("value", email)]] []);
             ("photos", VArr [] []);
             ("_raw", body);
             ("_json", json)]).

Definition normalize (body : value) : M value :=
  json <- parse JSON_parse body ;;
  profile_from body json.

Definition fetch_failed (error_ : value) : value :=
  VInternalOAuthError (VStr "Failed to fetch user profile") error_.

(** The callback given to [this._oauth2.get]. *)
Definition on_response (done : value -> value -> M unit)
    (error_ body : value) : M unit :=
  if truthy error_ then
    try_catch
      (data <- get_member error_ "data" ;;
       errorJSON <- parse JSON_parse data ;;
       error_description <- get_member errorJSON "error_description" ;;
       code <- get_member errorJSON "error" ;;
       done (VInternalOAuthError error_description code) VUndefined)
      (fun _ => done (fetch_failed error_) VUndefined)
  else
    try_catch
      (profile <- normalize body ;; done VNull profile)
      (fun e => done e VUndefined).

Definition userProfile (self : Strategy) (accessToken : value)
    (done : value -> value -> M unit) : M unit :=
  oauth2_get (_oauth2 self) (_profileURL self) accessToken (on_response done).

Definition authenticate : Strategy -> request -> M unit :=
  authenticate userProfile.

End Runtime.
End Current.

(** ** The older copy of the strategy *)

Module Legacy.
Section Runtime.

Variable JSON_parse : value -> option value.

Definition AmazonTokenStrategy (options : value) (verify : verify_callback)
    (net : value -> value -> value * value) : Strategy :=
  let options := or_else options (VObj []) in
  let options := set_prop options "authorizationURL"
    (or_else (get_prop options "authorizationURL")
             (VStr "https://www.amazon.com/ap/oa")) in
  let options := set_prop options "tokenURL"
    (or_else (get_prop options "tokenURL")
             (VStr "https://api.amazon.com/auth/O2/token")) in
  {| name := "amazon-token";
     _profileURL := VUndefined;
     _passReqToCallback := get_prop options "passReqToCallback";
     _oauth2 := {| _authorizeUrl := get_prop options "authorizationURL";
                   _accessTokenUrl := get_prop options "tokenURL";
                   _useAuthorizationHeaderForGET := true;
                   reply := net |};
     _verify := verify |}.

(** The body of the [try], after [JSON.parse]. *)
Definition profile_from (body json : value) : M value :=
  id <- get_member json "id" ;;
  displayName <- get_member json "displayName" ;;
  name1 <- get_member json "name" ;;
  familyName <- (if truthy name1 then get_member name1 "familyName" else ret name1) ;;
  name2 <- get_member json "name" ;;
  givenName <- (if truthy name2 then get_member name2 "givenName" else ret name2) ;;
  emails <- get_member json "emails" ;;
  image <- get_member json "image" ;;
  url <- (if truthy image then get_member image "url" else ret image) ;;
  ret (VObj [("provider", VStr "amazon");
             ("id", id);
             ("displayName", or_else displayName (VStr EmptyString));
             ("name", VObj [("familyName", or_else familyName (VStr EmptyString));
                            ("givenName", or_else givenName (VStr EmptyString))]);
             ("emails", or_else emails (VArr [] []));
             ("photos", VArr [VObj [("value", or_else url (VStr EmptyString))]] []);
             ("_raw", body);
             ("_json", json)]).

Definition normalize (body : value) : M value :=
  json <- parse JSON_parse body ;;
  profile_from body json.

Definition fetch_failed (error_ : value) : value :=
  VInternalOAuthError (VStr "Failed to fetch user profile") error_.

(** The callback given to [this._oauth2.get]. *)
Definition on_response (done : value -> value -> M unit)
    (error_ body : value) : M unit :=
  if truthy error_ then done (fetch_failed error_) VUndefined
  else
    try_catch
      (profile <- normalize body ;; done VNull profile)
      (fun e => done e VUndefined).

Definition userProfile (self : Strategy) (accessToken : value)
    (done : value -> value -> M unit) : M unit :=
  oauth2_get (_oauth2 self) (VStr "https://api.amazon.com/user/profile")
    accessToken (on_response done).

Definition authenticate : Strategy -> request -> M unit :=
  authenticate userProfile.

End Runtime.
End Legacy.

(** ** Notions used in the statements *)

(** The three places a token field is looked for, in the order tried. *)
Definition candidates (req : request) (k : string) : list value :=
  [get_prop (body req) k; get_prop (query req) k; get_prop (headers req) k].

(** The first non-empty candidate; non-empty is truthy, which for a string
    is: not the empty string. *)
Definition first_non_empty (vs : list value) : option value := find truthy vs.

(** The verify callback invokes its continuation once and returns. *)
Definition calls_back_once (v : verify_callback) : Prop :=
  forall args, exists error_ user info, v args = ([(error_, user, info)], None).

(** A computation that reports exactly one outcome and returns. *)
Definition settles (m : M unit) : Prop :=
  exists o, is_outcome o = true /\ outcomes (trace m) = [o] /\ outcome_of m = Ret tt.

(** The structured error built from a parsed error payload. *)
Definition structured_error (errorJSON : value) : value :=
  VInternalOAuthError (get_prop errorJSON "error_description")
                      (get_prop errorJSON "error").

Definition is_empty_array (v : value) : bool :=
  match v with
  | VArr [] _ => true
  | _ => false
  end.

(** [undefined] or [null] somewhere in a value. *)
Fixpoint has_nullish (v : value) : bool :=
  match v with
  | VUndefined | VNull => true
  | VObj props => existsb (fun kv => match kv with (_, x) => has_nullish x end) props
  | VArr elems props =>
      existsb has_nullish elems
      || existsb (fun kv => match kv with (_, x) => has_nullish x end) props
  | VInternalOAuthError m e => has_nullish m || has_nullish e
  | _ => false
  end.

(** The profile of a parsed response [json] with raw text [body], field by
    field, in lib/Strategy.js and in the older copy. *)
Definition current_profile (body json : value) : value :=
  VObj [("provider", VStr "amazon");
        ("id", get_prop json "user_id");
        ("displayName", get_prop json "name");
        ("name", VObj [("familyName", VStr EmptyString);
                       ("givenName", VStr EmptyString)]);
        ("emails", VArr [VObj [("value", get_prop json "email")]] []);
        ("photos", VArr [] []);
        ("_raw", body);
        ("_json", set_prop json "id" (get_prop json "user_id"))].

Definition legacy_profile (body json : value) : value :=
  VObj [("provider", VStr "amazon");
        ("id", get_prop json "id");
        ("displayName", or_else (get_prop json "displayName") (VStr EmptyString));
        ("name",
         VObj [("familyName",
                or_else (guarded (get_prop json "name") "familyName") (VStr EmptyString));
               ("givenName",
                or_else (guarded (get_prop json "name") "givenName") (VStr EmptyString))]);
        ("emails", or_else (get_prop json "emails") (VArr [] []));
        ("photos",
         VArr [VObj [("value",
                      or_else (guarded (get_prop json "image") "url") (VStr EmptyString))]]
              []);
        ("_raw", body);
        ("_json", json)].

(** ** Sample data *)

Definition sample_options : value :=
  VObj [("clientID", VStr "123-456-789"); ("clientSecret", VStr "shhh-its-a-secret")].

Definition token_request : request :=
  Request (VObj [("access_token", VStr "tok")]) VUndefined VUndefined.

Definition jane_body : string :=
  "{" ++ quoted "user_id" ++ ": " ++ quoted "123" ++ ", "
      ++ quoted "name" ++ ": " ++ quoted "Jane Doe" ++ ", "
      ++ quoted "email" ++ ": " ++ quoted "jane@example.com" ++ "}".

Definition jane_json : value :=
  VObj [("user_id", VStr "123"); ("name", VStr "Jane Doe");
        ("email", VStr "jane@example.com")].

Definition jane_profile : value :=
  VObj [("provider", VStr "amazon");
        ("id", VStr "123");
        ("displayName", VStr "Jane Doe");
        ("name", VObj [("familyName", VStr EmptyString); ("givenName", VStr EmptyString)]);
        ("emails", VArr [VObj [("value", VStr "jane@example.com")]] []);
        ("photos", VArr [] []);
        ("_raw", VStr jane_body);
        ("_json", VObj [("user_id", VStr "123"); ("name", VStr "Jane Doe");
                        ("email", VStr "jane@example.com"); ("id", VStr "123")])].

(** The network answers every request with Jane's profile. *)
Definition jane_net : value -> value -> value * value :=
  fun _ _ => (VNull, VStr jane_body).

(** Verify callbacks: one that accepts the profile as the user, one that
    never calls back, one that calls back twice, and one that reports what
    it is told to. *)
Definition accept_profile : verify_callback :=
  fun args =>
    match args with
    | WithReq _ _ _ profile | WithoutReq _ _ profile =>
        ([(VNull, profile, VUndefined)], None)
    end.

Definition silent : verify_callback := fun _ => ([], None).

Definition twice : verify_callback :=
  fun _ => ([(VNull, VBool true, VUndefined); (VNull, VBool true, VUndefined)], None).

Definition answering (error_ user info : value) : verify_callback :=
  fun _ => ([(error_, user, info)], None).

(** Requests: one with a different token in each place, one with none. *)
Definition three_tokens : request :=
  Request (VObj [("access_token", VStr "from-body")])
          (VObj [("access_token", VStr "from-query");
                 ("refresh_token", VStr "refresh-from-query")])
          (VObj [("access_token", VStr "from-headers");
                 ("refresh_token", VStr "refresh-from-headers")]).

Definition no_token_request : request :=
  Request (VObj [("access_token", VStr EmptyString)])
          VUndefined
          (VObj [("host", VStr "example.com")]).

Definition jane_strategy (verify : verify_callback) : Strategy :=
  Current.AmazonTokenStrategy sample_options verify jane_net.

(** Transport failures: a structured error payload, a payload that is not
    JSON, and the payload [null]. *)
Definition invalid_token_payload : string :=
  "{" ++ quoted "error" ++ ": " ++ quoted "invalid_token" ++ ", "
      ++ quoted "error_description" ++ ": " ++ quoted "token expired" ++ "}".

Definition invalid_token_error : value :=
  VObj [("statusCode", VNum 400); ("data", VStr invalid_token_payload)].

Definition html_error : value :=
  VObj [("statusCode", VNum 502); ("data", VStr "<html>Bad Gateway</html>")].

Definition null_payload_error : value :=
  VObj [("statusCode", VNum 500); ("data", VStr "null")].

Definition failing_strategy (err : value) : Strategy :=
  Current.AmazonTokenStrategy sample_options accept_profile
    (fun _ _ => (err, VUndefined)).

(** Responses: one with [user_id] only; one with a native [id] and no
    [user_id]; one with the fields of both schemas. *)
Definition bare_body : string :=
  "{" ++ quoted "user_id" ++ ": " ++ quoted "123" ++ "}".

Definition bare_json : value := VObj [("user_id", VStr "123")].

Definition native_body : string :=
  "{" ++ quoted "id" ++ ": " ++ quoted "native-id" ++ ", "
      ++ quoted "name" ++ ": " ++ quoted "Jane Doe" ++ "}".

Definition native_json : value :=
  VObj [("id", VStr "native-id"); ("name", VStr "Jane Doe")].

Definition both_body : string :=
  "{" ++ quoted "user_id" ++ ": " ++ quoted "amzn1.account.K2LI23KL2LK2" ++ ", "
      ++ quoted "id" ++ ": " ++ quoted "native-id" ++ ", "
      ++ quoted "displayName" ++ ": " ++ quoted "J. Doe" ++ ", "
      ++ quoted "name" ++ ": {" ++ quoted "familyName" ++ ": " ++ quoted "Doe" ++ ", "
                               ++ quoted "givenName" ++ ": " ++ quoted "Jane" ++ "}, "
      ++ quoted "email" ++ ": " ++ quoted "jane@example.com" ++ ", "
      ++ quoted "image" ++ ": {" ++ quoted "url" ++ ": "
                                ++ quoted "http://example.com/jane.png" ++ "}}".

Definition both_json : value :=
  VObj [("user_id", VStr "amzn1.account.K2LI23KL2LK2");
        ("id", VStr "native-id");
        ("displayName", VStr "J. Doe");
        ("name", VObj [("familyName", VStr "Doe"); ("givenName", VStr "Jane")]);
        ("email", VStr "jane@example.com");
        ("image", VObj [("url", VStr "http://example.com/jane.png")])].

(** What lib/Strategy.js makes of the response with [user_id] only. *)
Definition bare_profile : value :=
  VObj [("provider", VStr "amazon");
        ("id", VStr "123");
        ("displayName", VUndefined);
        ("name", VObj [("familyName", VStr EmptyString); ("givenName", VStr EmptyString)]);
        ("emails", VArr [VObj [("value", VUndefined)]] []);
        ("photos", VArr [] []);
        ("_raw", VStr bare_body);
        ("_json", VObj [("user_id", VStr "123"); ("id", VStr "123")])].

(** A [done] callback that reports what it is given. *)
Definition report (err profile : value) : M unit :=
  if truthy err then error err else success profile VUndefined.

(** ** Notions used for the whole of [authenticate] *)

(** What [verified] reports for one invocation [(err, user, info)]. *)
Definition outcome_for (call : value * value * value) : event :=
  match call with
  | (err, user, info) =>
      if truthy err then Error err
      else if truthy user then Success user info
      else Fail info
  end.

(** The arguments [authenticate] gives [_verify] for a profile: with the
    request first when [_passReqToCallback] is truthy. *)
Definition args_for (self : Strategy) (req : request) (profile : value) : verify_args :=
  if truthy (_passReqToCallback self)
  then WithReq req (accessToken_of req) (refreshToken_of req) profile
  else WithoutReq (accessToken_of req) (refreshToken_of req) profile.

(** The callback [authenticate] gives [_loadUserProfile], as one function. *)
Definition loaded (self : Strategy) (req : request) (err profile : value) : M unit :=
  if truthy err then error err
  else call_verify self (args_for self req profile) verified.


(** The URL written into the older copy's [userProfile]. *)
Definition fixed_profile_url : value := VStr "https://api.amazon.com/user/profile".

(** A verify callback that never throws. *)
Definition never_throws (v : verify_callback) : Prop :=
  forall args, snd (v args) = None.


(** More sample data: a verify callback that throws, options asking for the
    request, a network that answers with a given body, the older copy's
    strategy. *)
Definition throwing (e : value) : verify_callback := fun _ => ([], Some e).

Definition req_options : value :=
  VObj [("clientID", VStr "123-456-789");
        ("clientSecret", VStr "shhh-its-a-secret");
        ("passReqToCallback", VBool true);
        ("profileURL", VStr "https://api.example.com/profile")].

Definition answering_net (text : string) : value -> value -> value * value :=
  fun _ _ => (VNull, VStr text).

Definition legacy_strategy (verify : verify_callback)
    (net : value -> value -> value * value) : Strategy :=
  Legacy.AmazonTokenStrategy sample_options verify net.

(** The profile [userProfile] hands to [done], if it gets that far: the
    client reported no error and the body parsed to something other than
    [null]; [build] is the copy's profile. *)
Definition fetched (JSON_parse : value -> option value)
    (build : value -> value -> value) (err body : value) : option value :=
  if truthy err then None
  else match JSON_parse body with
       | Some json => if nullish json then None else Some (build body json)
       | None => None
       end.

(** The three ways the callback of [_oauth2.get] uses [done]: with an error
    object; with an error object inside a [try] whose handler calls it with
    another; with [(null, profile)] inside a [try] whose handler calls it
    with whatever was thrown. *)
Inductive responds (done : value -> value -> M unit) (ok : option value)
  : M unit -> Prop :=
| responds_error (x : value) :
    truthy x = true -> responds done ok (done x VUndefined)
| responds_guarded (x y : value) :
    truthy x = true -> truthy y = true ->
    responds done ok (try_catch (done x VUndefined) (fun _ => done y VUndefined))
| responds_profile (p : value) :
    ok = Some p ->
    responds done ok (try_catch (done VNull p) (fun e => done e VUndefined)).

(** More sample data: a response that is not JSON, a verify callback that
    accepts and then throws, a response in the older schema. *)
Definition not_json : string := "<html>Service Unavailable</html>".

Definition accept_then_throw (e : value) : verify_callback :=
  fun _ => ([(VNull, VBool true, VUndefined)], Some e).

Definition older_body : string :=
  "{" ++ quoted "id" ++ ": " ++ quoted "native-id" ++ ", "
      ++ quoted "displayName" ++ ": " ++ quoted "J. Doe" ++ ", "
      ++ quoted "emails" ++ ": [{" ++ quoted "value" ++ ": "
                                  ++ quoted "jane@example.com" ++ "}]}".

Definition older_json : value :=
  VObj [("id", VStr "native-id");
        ("displayName", VStr "J. Doe");
        ("emails", VArr [VObj [("value", VStr "jane@example.com")]] [])].

(** A verify callback that throws [null] when given a profile and rejects
    when given none. *)
Definition throw_null_on_profile : verify_callback :=
  fun args =>
    match args with
    | WithReq _ _ _ profile | WithoutReq _ _ profile =>
        if nullish profile then ([(VNull, VBool false, VUndefined)], None)
        else ([], Some VNull)
    end.

(** * Properties *)

(** ** Values and the trace *)

Lemma truthy_not_nullish (v : value) : truthy v = true -> nullish v = false.
Proof. destruct v; simpl; congruence. Qed.

Lemma truthy_string (s : string) : truthy (VStr s) = true <-> s <> EmptyString.
Proof. destruct s; simpl; split; congruence. Qed.

Lemma falsy_has_no_property (v : value) (k : string) :
  truthy v = false -> get_prop v k = VUndefined.
Proof. destruct v; simpl; congruence. Qed.

Lemma guarded_truthy (loc : value) (k : string) :
  truthy (guarded loc k) = truthy (get_prop loc k).
Proof.
  unfold guarded. destruct (truthy loc) eqn:E; [reflexivity|].
  rewrite (falsy_has_no_property _ k E). exact E.
Qed.

Lemma guarded_read (loc : value) (k : string) :
  truthy (get_prop loc k) = true -> guarded loc k = get_prop loc k.
Proof.
  unfold guarded. destruct (truthy loc) eqn:E; [reflexivity|].
  rewrite (falsy_has_no_property _ k E). discriminate.
Qed.

Lemma outcomes_app (t1 t2 : list event) :
  outcomes (t1 ++ t2) = outcomes t1 ++ outcomes t2.
Proof. unfold outcomes. apply filter_app. Qed.

(** ** Token extraction *)

(** The expression [(b && b.k) || (q && q.k) || (h && h.k)] against the first
    non-empty of the three reads. *)
Lemma extraction_first_non_empty (b q h : value) (k : string) :
  match first_non_empty [get_prop b k; get_prop q k; get_prop h k] with
  | Some v => or_else (or_else (guarded b k) (guarded q k)) (guarded h k) = v
  | None => truthy (or_else (or_else (guarded b k) (guarded q k)) (guarded h k)) = false
  end.
Proof.
  unfold first_non_empty, or_else; simpl.
  rewrite !guarded_truthy.
  destruct (truthy (get_prop b k)) eqn:Eb.
  - rewrite guarded_truthy, Eb. now apply guarded_read.
  - destruct (truthy (get_prop q k)) eqn:Eq.
    + rewrite guarded_truthy, Eq. now apply guarded_read.
    + rewrite guarded_truthy, Eq.
      destruct (truthy (get_prop h k)) eqn:Eh.
      * now apply guarded_read.
      * now rewrite guarded_truthy.
Qed.

(** C3.  The access token is the first non-empty of [body.access_token],
    [query.access_token], [headers.access_token]; the refresh token is the
    first non-empty of the three [refresh_token] reads; each is found from its
    own field alone, so body wins over query and query over headers. *)
Theorem tokens_first_non_empty (req : request) :
  (forall v, first_non_empty (candidates req "access_token") = Some v ->
             accessToken_of req = v) /\
  (forall v, first_non_empty (candidates req "refresh_token") = Some v ->
             refreshToken_of req = v) /\
  (first_non_empty (candidates req "access_token") = None ->
   truthy (accessToken_of req) = false) /\
  (first_non_empty (candidates req "refresh_token") = None ->
   truthy (refreshToken_of req) = false) /\
  (forall req', candidates req' "access_token" = candidates req "access_token" ->
                truthy (accessToken_of req) = true ->
                accessToken_of req' = accessToken_of req) /\
  (forall req', candidates req' "refresh_token" = candidates req "refresh_token" ->
                truthy (refreshToken_of req) = true ->
                refreshToken_of req' = refreshToken_of req).
Proof.
  pose proof (extraction_first_non_empty (body req) (query req) (headers req)
                "access_token") as Ha.
  pose proof (extraction_first_non_empty (body req) (query req) (headers req)
                "refresh_token") as Hr.
  fold (candidates req "access_token") in Ha.
  fold (candidates req "refresh_token") in Hr.
  fold (accessToken_of req) in Ha. fold (refreshToken_of req) in Hr.
  repeat split.
  - intros v Hv. rewrite Hv in Ha. exact Ha.
  - intros v Hv. rewrite Hv in Hr. exact Hr.
  - intros Hn. rewrite Hn in Ha. exact Ha.
  - intros Hn. rewrite Hn in Hr. exact Hr.
  - intros req' Hc Ht.
    pose proof (extraction_first_non_empty (body req') (query req') (headers req')
                  "access_token") as Ha'.
    fold (candidates req' "access_token") in Ha'. fold (accessToken_of req') in Ha'.
    rewrite Hc in Ha'.
    destruct (first_non_empty (candidates req "access_token")); congruence.
  - intros req' Hc Ht.
    pose proof (extraction_first_non_empty (body req') (query req') (headers req')
                  "refresh_token") as Hr'.
    fold (candidates req' "refresh_token") in Hr'. fold (refreshToken_of req') in Hr'.
    rewrite Hc in Hr'.
    destruct (first_non_empty (candidates req "refresh_token")); congruence.
Qed.

Lemma tokens_first_non_empty_witness :
  accessToken_of three_tokens = VStr "from-body" /\
  refreshToken_of three_tokens = VStr "refresh-from-query".
Proof.
  destruct (tokens_first_non_empty three_tokens) as (Ha & Hr & _).
  split; [apply Ha | apply Hr]; reflexivity.
Defined.

(** ** The missing token *)

(** C2.  When none of [body], [query], [headers] carries a non-empty
    [access_token], [authenticate] calls [fail] with the message
    [You should provide access_token] and does nothing else: the trace is that
    one call, so there is no request to the provider, no call of the verify
    callback, no [success] and no [error].  This holds whatever [userProfile]
    is, so for both copies of the strategy. *)
Theorem missing_token_fails
    (userProfile : Strategy -> value -> (value -> value -> M unit) -> M unit)
    (self : Strategy) (req : request) :
  truthy (get_prop (body req) "access_token") = false ->
  truthy (get_prop (query req) "access_token") = false ->
  truthy (get_prop (headers req) "access_token") = false ->
  authenticate userProfile self req
  = ([Fail (VObj [("message", VStr "You should provide access_token")])], Ret tt).
Proof.
  intros Hb Hq Hh.
  pose proof (extraction_first_non_empty (body req) (query req) (headers req)
                "access_token") as Hnone.
  unfold first_non_empty in Hnone. simpl in Hnone. rewrite Hb, Hq, Hh in Hnone.
  unfold authenticate. fold (accessToken_of req) in Hnone. now rewrite Hnone.
Qed.

Lemma missing_token_fails_witness :
  Current.authenticate JSON_parse_text (jane_strategy accept_profile) no_token_request
  = ([Fail (VObj [("message", VStr "You should provide access_token")])], Ret tt).
Proof.
  apply (missing_token_fails (Current.userProfile JSON_parse_text)
           (jane_strategy accept_profile) no_token_request); reflexivity.
Defined.

(** ** The verified continuation *)

(** C6.  [verified(err, user, info)] calls [error(err)] when [err] is truthy,
    otherwise [fail(info)] when [user] is falsy, otherwise
    [success(user, info)]; nothing else happens. *)
Theorem verified_outcome (err user info : value) :
  (truthy err = true -> verified err user info = ([Error err], Ret tt)) /\
  (truthy err = false -> truthy user = false ->
   verified err user info = ([Fail info], Ret tt)) /\
  (truthy err = false -> truthy user = true ->
   verified err user info = ([Success user info], Ret tt)).
Proof.
  unfold verified, error, fail, success, emit.
  repeat split; intros; repeat match goal with H : truthy _ = _ |- _ => rewrite H end;
    reflexivity.
Qed.

Lemma verified_outcome_witness :
  verified VTypeError VUndefined VUndefined = ([Error VTypeError], Ret tt) /\
  verified VNull (VBool false) (VObj [("message", VStr "rejected")])
  = ([Fail (VObj [("message", VStr "rejected")])], Ret tt) /\
  verified VNull (VObj [("id", VNum 1)]) (VObj [("scope", VStr "all")])
  = ([Success (VObj [("id", VNum 1)]) (VObj [("scope", VStr "all")])], Ret tt).
Proof.
  split; [|split].
  - apply (verified_outcome VTypeError VUndefined VUndefined). reflexivity.
  - apply (verified_outcome VNull (VBool false) (VObj [("message", VStr "rejected")]));
      reflexivity.
  - apply (verified_outcome VNull (VObj [("id", VNum 1)]) (VObj [("scope", VStr "all")]));
      reflexivity.
Defined.

(** The two runs of the specification: a verify callback answering
    [(null, false, {message: "rejected"})] makes [authenticate] call [fail]
    with that info, one answering [(null, {id: 1}, {scope: "all"})] makes it
    call [success] with that user and info. *)
Example rejected_run :
  outcomes (trace (Current.authenticate JSON_parse_text
    (jane_strategy (answering VNull (VBool false) (VObj [("message", VStr "rejected")])))
    token_request))
  = [Fail (VObj [("message", VStr "rejected")])].
Proof. reflexivity. Qed.

Example accepted_run :
  outcomes (trace (Current.authenticate JSON_parse_text
    (jane_strategy (answering VNull (VObj [("id", VNum 1)]) (VObj [("scope", VStr "all")])))
    token_request))
  = [Success (VObj [("id", VNum 1)]) (VObj [("scope", VStr "all")])].
Proof. reflexivity. Qed.

(** ** The monad *)

Lemma bind_ret {A B} (a : A) (f : A -> M B) : bind (ret a) f = f a.
Proof. unfold bind, ret. destruct (f a); reflexivity. Qed.

Lemma bind_throw {A B} (e : value) (f : A -> M B) : bind (throw e) f = throw e.
Proof. reflexivity. Qed.

Lemma try_ret {A} (a : A) (h : value -> M A) : try_catch (ret a) h = ret a.
Proof. reflexivity. Qed.

Lemma try_throw {A} (e : value) (h : value -> M A) : try_catch (throw e) h = h e.
Proof. unfold try_catch, throw. destruct (h e); reflexivity. Qed.

(** ** Property reads after the assignment of [id] *)

Lemma lookup_assign_same (k : string) (v : value) (props : list (string * value)) :
  lookup k (assign k v props) = Some v.
Proof.
  induction props as [|[k' v'] rest IH]; simpl.
  - now rewrite String.eqb_refl.
  - destruct (String.eqb k k') eqn:E; simpl.
    + now rewrite String.eqb_refl.
    + now rewrite E.
Qed.

Lemma lookup_assign_other (k k' : string) (v : value) (props : list (string * value)) :
  k <> k' -> lookup k' (assign k v props) = lookup k' props.
Proof.
  intros Hne. induction props as [|[k0 v0] rest IH]; simpl.
  - destruct (String.eqb k' k) eqn:E; [|reflexivity].
    apply String.eqb_eq in E. congruence.
  - destruct (String.eqb k k0) eqn:E; simpl.
    + apply String.eqb_eq in E. subst k0.
      destruct (String.eqb k' k) eqn:E'; [|reflexivity].
      apply String.eqb_eq in E'. congruence.
    + now rewrite IH.
Qed.

Lemma assign_assign (k : string) (x y : value) (props : list (string * value)) :
  assign k y (assign k x props) = assign k y props.
Proof.
  induction props as [|[k' v'] rest IH]; simpl.
  - now rewrite String.eqb_refl.
  - destruct (String.eqb k k') eqn:E; simpl.
    + now rewrite String.eqb_refl.
    + now rewrite E, IH.
Qed.

Lemma id_after_assignment (json : value) :
  get_prop (set_prop json "id" (get_prop json "user_id")) "id" = get_prop json "user_id".
Proof.
  destruct json; try reflexivity; simpl; unfold own; now rewrite lookup_assign_same.
Qed.

Lemma other_after_assignment (json x : value) (k : string) :
  "id" <> k -> get_prop (set_prop json "id" x) k = get_prop json k.
Proof.
  intros Hne. destruct json; try reflexivity; simpl; unfold own;
    now rewrite lookup_assign_other.
Qed.

Lemma set_prop_twice (json x y : value) (k : string) :
  set_prop (set_prop json k x) k y = set_prop json k y.
Proof. destruct json; try reflexivity; simpl; now rewrite assign_assign. Qed.

Lemma nullish_after_assignment (json x : value) (k : string) :
  nullish (set_prop json k x) = nullish json.
Proof. destruct json; reflexivity. Qed.

(** ** Normalization, step by step *)

Lemma current_profile_from (body json : value) :
  Current.profile_from body json
  = if nullish json then throw VTypeError else ret (current_profile body json).
Proof.
  unfold Current.profile_from, get_member, set_member.
  destruct (nullish json) eqn:En; [reflexivity|].
  rewrite !bind_ret, nullish_after_assignment, En, !bind_ret.
  unfold current_profile.
  rewrite id_after_assignment, !other_after_assignment by discriminate.
  reflexivity.
Qed.

Lemma legacy_profile_from (body json : value) :
  Legacy.profile_from body json
  = if nullish json then throw VTypeError else ret (legacy_profile body json).
Proof.
  unfold Legacy.profile_from, get_member, legacy_profile, guarded.
  destruct (nullish json) eqn:En; [reflexivity|].
  rewrite !bind_ret.
  destruct (truthy (get_prop json "name")) eqn:Hn;
    destruct (truthy (get_prop json "image")) eqn:Hi;
    repeat (rewrite ?Hn, ?Hi, ?(truthy_not_nullish _ Hn), ?(truthy_not_nullish _ Hi);
            rewrite bind_ret);
    rewrite ?Hn, ?Hi; reflexivity.
Qed.

Section Normalize.

Variable JSON_parse : value -> option value.

Lemma current_normalize (body : value) :
  Current.normalize JSON_parse body
  = match JSON_parse body with
    | Some json =>
        if nullish json then throw VTypeError else ret (current_profile body json)
    | None => throw VSyntaxError
    end.
Proof.
  unfold Current.normalize, parse.
  destruct (JSON_parse body) as [json|]; [|reflexivity].
  now rewrite bind_ret, current_profile_from.
Qed.

Lemma legacy_normalize (body : value) :
  Legacy.normalize JSON_parse body
  = match JSON_parse body with
    | Some json =>
        if nullish json then throw VTypeError else ret (legacy_profile body json)
    | None => throw VSyntaxError
    end.
Proof.
  unfold Legacy.normalize, parse.
  destruct (JSON_parse body) as [json|]; [|reflexivity].
  now rewrite bind_ret, legacy_profile_from.
Qed.

(** The callback of [_oauth2.get], by cases on what the client reports. *)
Lemma current_on_failure (done : value -> value -> M unit) (err body : value) :
  truthy err = true ->
  Current.on_response JSON_parse done err body
  = match JSON_parse (get_prop err "data") with
    | Some j =>
        if nullish j then done (Current.fetch_failed err) VUndefined
        else try_catch (done (structured_error j) VUndefined)
                       (fun _ => done (Current.fetch_failed err) VUndefined)
    | None => done (Current.fetch_failed err) VUndefined
    end.
Proof.
  intros Et. unfold Current.on_response, parse, get_member. rewrite Et.
  rewrite (truthy_not_nullish _ Et), bind_ret.
  destruct (JSON_parse (get_prop err "data")) as [j|].
  - rewrite bind_ret. destruct (nullish j).
    + now rewrite bind_throw, try_throw.
    + now rewrite !bind_ret.
  - now rewrite bind_throw, try_throw.
Qed.

Lemma current_on_success (done : value -> value -> M unit) (err body : value) :
  truthy err = false ->
  Current.on_response JSON_parse done err body
  = match JSON_parse body with
    | Some json =>
        if nullish json then done VTypeError VUndefined
        else try_catch (done VNull (current_profile body json))
                       (fun e => done e VUndefined)
    | None => done VSyntaxError VUndefined
    end.
Proof.
  intros Et. unfold Current.on_response. rewrite Et, current_normalize.
  destruct (JSON_parse body) as [json|].
  - destruct (nullish json).
    + now rewrite bind_throw, try_throw.
    + now rewrite bind_ret.
  - now rewrite bind_throw, try_throw.
Qed.

Lemma legacy_on_success (done : value -> value -> M unit) (err body : value) :
  truthy err = false ->
  Legacy.on_response JSON_parse done err body
  = match JSON_parse body with
    | Some json =>
        if nullish json then done VTypeError VUndefined
        else try_catch (done VNull (legacy_profile body json))
                       (fun e => done e VUndefined)
    | None => done VSyntaxError VUndefined
    end.
Proof.
  intros Et. unfold Legacy.on_response. rewrite Et, legacy_normalize.
  destruct (JSON_parse body) as [json|].
  - destruct (nullish json).
    + now rewrite bind_throw, try_throw.
    + now rewrite bind_ret.
  - now rewrite bind_throw, try_throw.
Qed.

End Normalize.

(** ** Exactly one outcome *)

Lemma emit_outcome_settles (o : event) : is_outcome o = true -> settles (emit o).
Proof.
  intros Ho. exists o. repeat split; [exact Ho|].
  unfold outcomes, trace, emit; simpl. now rewrite Ho.
Qed.

Lemma verified_settles (err user info : value) : settles (verified err user info).
Proof.
  unfold verified, error, fail, success.
  destruct (truthy err); [|destruct (truthy user)]; simpl;
    now apply emit_outcome_settles.
Qed.

Lemma call_verify_settles (self : Strategy) (args : verify_args) :
  calls_back_once (_verify self) -> settles (call_verify self args verified).
Proof.
  intros H. destruct (H args) as (e & u & i & Hv).
  destruct (verified_settles e u i) as (o & Ho & Ht & Hr).
  unfold call_verify. rewrite Hv. simpl.
  destruct (verified e u i) as [t r]. simpl in Ht, Hr. subst r. simpl.
  exists o. repeat split; [exact Ho|].
  unfold trace; simpl. rewrite !app_nil_r. apply Ht.
Qed.

Lemma after_get_settles (url token : value) (m : M unit) :
  settles m -> settles (emit (Get url token) ;;; m).
Proof.
  intros (o & Ho & Ht & Hr). destruct m as [t r]. simpl in *. subst r.
  exists o. repeat split; assumption.
Qed.

Section OneOutcome.

Variable JSON_parse : value -> option value.
Variable done : value -> value -> M unit.
Hypothesis done_settles : forall e p, settles (done e p).

Lemma try_done (e p : value) (h : value -> M unit) :
  try_catch (done e p) h = done e p.
Proof.
  destruct (done_settles e p) as (o & _ & _ & Hr).
  destruct (done e p) as [t r]. simpl in Hr. subst r. reflexivity.
Qed.

Lemma current_on_response_settles (err body : value) :
  settles (Current.on_response JSON_parse done err body).
Proof.
  destruct (truthy err) eqn:Et.
  - rewrite current_on_failure by exact Et.
    destruct (JSON_parse (get_prop err "data")) as [j|];
      [destruct (nullish j)|]; rewrite ?try_done; apply done_settles.
  - rewrite current_on_success by exact Et.
    destruct (JSON_parse body) as [j|];
      [destruct (nullish j)|]; rewrite ?try_done; apply done_settles.
Qed.

Lemma legacy_on_response_settles (err body : value) :
  settles (Legacy.on_response JSON_parse done err body).
Proof.
  destruct (truthy err) eqn:Et.
  - unfold Legacy.on_response. rewrite Et. apply done_settles.
  - rewrite legacy_on_success by exact Et.
    destruct (JSON_parse body) as [j|];
      [destruct (nullish j)|]; rewrite ?try_done; apply done_settles.
Qed.

End OneOutcome.

(** The callback [authenticate] gives to [_loadUserProfile]. *)
Lemma loaded_settles (self : Strategy) (req : request) (token refresh err profile : value) :
  calls_back_once (_verify self) ->
  settles (if truthy err then error err
           else if truthy (_passReqToCallback self)
           then call_verify self (WithReq req token refresh profile) verified
           else call_verify self (WithoutReq token refresh profile) verified).
Proof.
  intros H. destruct (truthy err).
  - now apply emit_outcome_settles.
  - destruct (truthy (_passReqToCallback self)); now apply call_verify_settles.
Qed.

(** C1, as the code has it.  When the verify callback invokes its
    continuation exactly once and returns, every call of [authenticate]
    reports exactly one of [success], [fail], [error] and ends without an
    exception: on a missing token, a failed fetch, a response that does not
    parse, and each of the three answers of the verify callback. *)
Theorem exactly_one_outcome (JSON_parse : value -> option value)
    (self : Strategy) (req : request) :
  calls_back_once (_verify self) ->
  exists o,
    is_outcome o = true /\
    outcomes (trace (Current.authenticate JSON_parse self req)) = [o] /\
    outcome_of (Current.authenticate JSON_parse self req) = Ret tt.
Proof.
  intros H. change (settles (Current.authenticate JSON_parse self req)).
  unfold Current.authenticate, authenticate, _loadUserProfile, Current.userProfile,
    oauth2_get.
  destruct (negb (truthy (accessToken_of req))).
  - now apply emit_outcome_settles.
  - destruct (reply (_oauth2 self) (_profileURL self) (accessToken_of req)) as [err body].
    apply after_get_settles, current_on_response_settles.
    intros e p. now apply loaded_settles.
Qed.

Lemma exactly_one_outcome_witness :
  exists o,
    is_outcome o = true /\
    outcomes (trace (Current.authenticate JSON_parse_text
                       (jane_strategy accept_profile) token_request)) = [o] /\
    outcome_of (Current.authenticate JSON_parse_text
                  (jane_strategy accept_profile) token_request) = Ret tt.
Proof.
  apply (exactly_one_outcome JSON_parse_text (jane_strategy accept_profile) token_request).
  intros [r a f p | a f p]; exists VNull, p, VUndefined; reflexivity.
Defined.

(** The same for the older copy. *)
Lemma exactly_one_outcome_legacy (JSON_parse : value -> option value)
    (self : Strategy) (req : request) :
  calls_back_once (_verify self) ->
  settles (Legacy.authenticate JSON_parse self req).
Proof.
  intros H.
  unfold Legacy.authenticate, authenticate, _loadUserProfile, Legacy.userProfile,
    oauth2_get.
  destruct (negb (truthy (accessToken_of req))).
  - now apply emit_outcome_settles.
  - destruct (reply (_oauth2 self) (VStr "https://api.amazon.com/user/profile")
                (accessToken_of req)) as [err body].
    apply after_get_settles, legacy_on_response_settles.
    intros e p. now apply loaded_settles.
Qed.

(** C1, as stated, fails: with a verify callback that never invokes its
    continuation, [authenticate] reaches the callback and reports no outcome
    at all. *)
Lemma silent_verify_no_outcome :
  ~ (exists o,
       outcomes (trace (Current.authenticate JSON_parse_text
                          (jane_strategy silent) token_request)) = [o]).
Proof. intros [o H]. vm_compute in H. discriminate H. Qed.

(** And with one that invokes it twice there are two. *)
Example twice_verify_two_outcomes :
  outcomes (trace (Current.authenticate JSON_parse_text
                     (jane_strategy twice) token_request))
  = [Success (VBool true) VUndefined; Success (VBool true) VUndefined].
Proof. reflexivity. Qed.

(** ** Transport failures *)

(** C5, as the code has it.  When the client reports a transport failure
    [err], [authenticate] reports through [error], once, and the error is:
    the structured [InternalOAuthError(error_description, error)] of the
    payload [err.data] when that parses to a value other than [null];
    [InternalOAuthError('Failed to fetch user profile', err)], wrapping the
    transport error, when the payload does not parse or parses to [null].
    It is never the parse exception. *)
Theorem transport_failure_classified (JSON_parse : value -> option value)
    (self : Strategy) (req : request) (err body : value) :
  truthy (accessToken_of req) = true ->
  reply (_oauth2 self) (_profileURL self) (accessToken_of req) = (err, body) ->
  truthy err = true ->
  (forall j, JSON_parse (get_prop err "data") = Some j -> nullish j = false ->
     Current.authenticate JSON_parse self req
     = ([Get (_profileURL self) (accessToken_of req);
         Error (VInternalOAuthError (get_prop j "error_description")
                                    (get_prop j "error"))], Ret tt)) /\
  (JSON_parse (get_prop err "data") = None \/
   JSON_parse (get_prop err "data") = Some VNull ->
     Current.authenticate JSON_parse self req
     = ([Get (_profileURL self) (accessToken_of req);
         Error (VInternalOAuthError (VStr "Failed to fetch user profile") err)],
        Ret tt)).
Proof.
  intros Htok Hreply Herr.
  unfold Current.authenticate, authenticate, _loadUserProfile, Current.userProfile,
    oauth2_get.
  rewrite Htok, Hreply. simpl negb. cbv iota.
  rewrite current_on_failure by exact Herr.
  split.
  - intros j Hj Hn. rewrite Hj, Hn. reflexivity.
  - intros [Hnone | Hnull]; [rewrite Hnone | rewrite Hnull]; reflexivity.
Qed.

Lemma transport_failure_classified_witness :
  Current.authenticate JSON_parse_text (failing_strategy invalid_token_error) token_request
  = ([Get (VStr "https://api.amazon.com/user/profile") (VStr "tok");
      Error (VInternalOAuthError (VStr "token expired") (VStr "invalid_token"))], Ret tt)
  /\
  Current.authenticate JSON_parse_text (failing_strategy html_error) token_request
  = ([Get (VStr "https://api.amazon.com/user/profile") (VStr "tok");
      Error (VInternalOAuthError (VStr "Failed to fetch user profile") html_error)],
     Ret tt).
Proof.
  split.
  - apply (proj1 (transport_failure_classified JSON_parse_text
                    (failing_strategy invalid_token_error) token_request
                    invalid_token_error VUndefined
                    eq_refl eq_refl eq_refl)
             (VObj [("error", VStr "invalid_token");
                    ("error_description", VStr "token expired")]));
      reflexivity.
  - apply (proj2 (transport_failure_classified JSON_parse_text
                    (failing_strategy html_error) token_request
                    html_error VUndefined
                    eq_refl eq_refl eq_refl)).
    left. reflexivity.
Defined.

(** C5, as stated, fails on the payload [null]: it parses as JSON, yet the
    error reported is the generic one, not one carrying the payload's
    [error_description] and [error]. *)
Lemma null_payload_is_generic :
  JSON_parse_text (get_prop null_payload_error "data") = Some VNull /\
  outcomes (trace (Current.authenticate JSON_parse_text
                     (failing_strategy null_payload_error) token_request))
  = [Error (VInternalOAuthError (VStr "Failed to fetch user profile") null_payload_error)]
  /\
  outcomes (trace (Current.authenticate JSON_parse_text
                     (failing_strategy null_payload_error) token_request))
  <> [Error (structured_error VNull)].
Proof.
  split; [reflexivity|]. split; [reflexivity|].
  vm_compute. discriminate.
Qed.

(** ** The normalized profile *)

(** C4.  For a response that parses, the profile (there is one unless the
    response is [null]) has as [id] the response's [user_id]; the parsed
    object kept in [_json] has its [id] overwritten with [user_id] too, so a
    native [id] of the response shows in neither place. *)
Theorem id_is_user_id (JSON_parse : value -> option value) (body json : value) :
  JSON_parse body = Some json ->
  (nullish json = false ->
   exists profile, Current.normalize JSON_parse body = ([], Ret profile)) /\
  (forall t profile,
     Current.normalize JSON_parse body = (t, Ret profile) ->
     get_prop profile "id" = get_prop json "user_id" /\
     get_prop (get_prop profile "_json") "id" = get_prop json "user_id").
Proof.
  intros Hp. rewrite current_normalize, Hp. split.
  - intros Hn. rewrite Hn. eexists. reflexivity.
  - intros t profile. destruct (nullish json); [discriminate|].
    intros H. injection H as _ <-. split; [reflexivity|].
    apply id_after_assignment.
Qed.

Lemma id_is_user_id_witness :
  (exists profile,
     Current.normalize JSON_parse_text (VStr both_body) = ([], Ret profile)) /\
  get_prop (current_profile (VStr both_body) both_json) "id"
  = VStr "amzn1.account.K2LI23KL2LK2" /\
  get_prop (get_prop (current_profile (VStr both_body) both_json) "_json") "id"
  = VStr "amzn1.account.K2LI23KL2LK2".
Proof.
  destruct (id_is_user_id JSON_parse_text (VStr both_body) both_json eq_refl)
    as [Hex Hid].
  split.
  - apply Hex. reflexivity.
  - apply (Hid [] (current_profile (VStr both_body) both_json)). reflexivity.
Defined.

(** C7.  The response of the specification: with [JSON.parse] reading Jane's
    body as the object it denotes, normalization gives exactly Jane's
    profile, with [_raw] the body and [_json] the parsed object (which by
    then carries the copied [id]); and [userProfile], when the client reports
    that body, calls [done(null, profile)] with it. *)
Theorem jane_is_normalized (JSON_parse : value -> option value) :
  JSON_parse (VStr jane_body) = Some jane_json ->
  Current.normalize JSON_parse (VStr jane_body) = ([], Ret jane_profile) /\
  (forall self accessToken done err,
     reply (_oauth2 self) (_profileURL self) accessToken = (err, VStr jane_body) ->
     truthy err = false ->
     Current.userProfile JSON_parse self accessToken done
     = (emit (Get (_profileURL self) accessToken) ;;;
        try_catch (done VNull jane_profile) (fun e => done e VUndefined))).
Proof.
  intros Hp. split.
  - rewrite current_normalize, Hp. reflexivity.
  - intros self accessToken done err Hr He.
    unfold Current.userProfile, oauth2_get. rewrite Hr.
    rewrite current_on_success by exact He. rewrite Hp. reflexivity.
Qed.

Lemma jane_is_normalized_witness :
  Current.normalize JSON_parse_text (VStr jane_body) = ([], Ret jane_profile) /\
  Current.userProfile JSON_parse_text (jane_strategy accept_profile) (VStr "tok") report
  = ([Get (VStr "https://api.amazon.com/user/profile") (VStr "tok");
      Success jane_profile VUndefined], Ret tt).
Proof.
  destruct (jane_is_normalized JSON_parse_text eq_refl) as [Hn Hu].
  split; [exact Hn|].
  rewrite (Hu (jane_strategy accept_profile) (VStr "tok") report VNull eq_refl eq_refl).
  reflexivity.
Defined.

(** The verify callback receives that profile. *)
Example jane_is_verified :
  Current.authenticate JSON_parse_text (jane_strategy accept_profile) token_request
  = ([Get (VStr "https://api.amazon.com/user/profile") (VStr "tok");
      Verify (WithoutReq (VStr "tok") VUndefined jane_profile);
      Success jane_profile VUndefined], Ret tt).
Proof. reflexivity. Qed.

(** C10.  For a response that parses and has no [user_id], the assignment
    [json.id = json.user_id] stores [undefined]: the profile (there is one
    unless the response is [null]) has [id] undefined, and so has the object
    in [_json], whatever native [id] the response has; the profile is the
    same for every value [x] of that native [id]. *)
Theorem id_without_user_id (JSON_parse : value -> option value) (body json : value) :
  JSON_parse body = Some json ->
  get_prop json "user_id" = VUndefined ->
  (nullish json = false ->
   exists profile, Current.normalize JSON_parse body = ([], Ret profile)) /\
  (forall t profile,
     Current.normalize JSON_parse body = (t, Ret profile) ->
     get_prop profile "id" = VUndefined /\
     get_prop (get_prop profile "_json") "id" = VUndefined) /\
  (forall x, Current.profile_from body (set_prop json "id" x)
             = Current.profile_from body json).
Proof.
  intros Hp Hu. rewrite current_normalize, Hp. split; [|split].
  - intros Hn. rewrite Hn. eexists. reflexivity.
  - intros t profile. destruct (nullish json); [discriminate|].
    intros H. injection H as _ <-. split; [exact Hu|].
    etransitivity; [apply id_after_assignment | exact Hu].
  - intros x. rewrite !current_profile_from, nullish_after_assignment.
    destruct (nullish json); [reflexivity|].
    unfold current_profile.
    rewrite !other_after_assignment by discriminate.
    now rewrite set_prop_twice.
Qed.

Lemma id_without_user_id_witness :
  (exists profile,
     Current.normalize JSON_parse_text (VStr native_body) = ([], Ret profile)) /\
  get_prop (current_profile (VStr native_body) native_json) "id" = VUndefined /\
  get_prop (get_prop (current_profile (VStr native_body) native_json) "_json") "id"
  = VUndefined.
Proof.
  destruct (id_without_user_id JSON_parse_text (VStr native_body) native_json
              eq_refl eq_refl) as (Hex & Hid & _).
  split.
  - apply Hex. reflexivity.
  - apply (Hid [] (current_profile (VStr native_body) native_json)). reflexivity.
Defined.

(** C8, as the code has it.  For a response that parses, a profile is
    produced unless the response is [null].  In lib/Strategy.js its [photos]
    is always the empty array and its [name] always has empty [familyName]
    and [givenName], while [emails] is always an array of one entry whose
    [value] is the response's [email], and [displayName] is the response's
    [name]: both are [undefined] when the field is absent.  In the older copy
    a missing (or falsy) [displayName], [name], [emails] or [image] gives the
    empty string, empty names, the empty array, and a [photos] array of one
    entry with the empty string. *)
Theorem absent_fields (JSON_parse : value -> option value) (body json : value) :
  JSON_parse body = Some json ->
  (nullish json = false ->
   (exists p, Current.normalize JSON_parse body = ([], Ret p)) /\
   (exists l, Legacy.normalize JSON_parse body = ([], Ret l))) /\
  (forall t p,
     Current.normalize JSON_parse body = (t, Ret p) ->
     get_prop p "photos" = VArr [] [] /\
     get_prop p "name"
     = VObj [("familyName", VStr EmptyString); ("givenName", VStr EmptyString)] /\
     get_prop p "emails" = VArr [VObj [("value", get_prop json "email")]] [] /\
     get_prop p "displayName" = get_prop json "name") /\
  (forall t l,
     Legacy.normalize JSON_parse body = (t, Ret l) ->
     (truthy (get_prop json "displayName") = false ->
      get_prop l "displayName" = VStr EmptyString) /\
     (truthy (get_prop json "name") = false ->
      get_prop l "name"
      = VObj [("familyName", VStr EmptyString); ("givenName", VStr EmptyString)]) /\
     (truthy (get_prop json "emails") = false -> get_prop l "emails" = VArr [] []) /\
     (truthy (get_prop json "image") = false ->
      get_prop l "photos" = VArr [VObj [("value", VStr EmptyString)]] []) /\
     is_empty_array (get_prop l "photos") = false).
Proof.
  intros Hp. rewrite current_normalize, legacy_normalize, Hp.
  split; [|split].
  - intros Hn. rewrite Hn. split; eexists; reflexivity.
  - intros t p. destruct (nullish json); [discriminate|].
    intros H. injection H as _ <-. repeat split.
  - intros t l. destruct (nullish json); [discriminate|].
    intros H. injection H as _ <-.
    repeat split; try intros H;
      change (get_prop (legacy_profile body json) "displayName")
        with (or_else (get_prop json "displayName") (VStr EmptyString));
      change (get_prop (legacy_profile body json) "emails")
        with (or_else (get_prop json "emails") (VArr [] []));
      unfold legacy_profile, or_else, guarded;
      cbn [get_prop own lookup String.eqb Ascii.eqb Bool.eqb];
      repeat rewrite H; reflexivity.
Qed.

Lemma absent_fields_witness :
  ((exists p, Current.normalize JSON_parse_text (VStr bare_body) = ([], Ret p)) /\
   (exists l, Legacy.normalize JSON_parse_text (VStr bare_body) = ([], Ret l))) /\
  get_prop bare_profile "photos" = VArr [] [] /\
  get_prop bare_profile "emails" = VArr [VObj [("value", VUndefined)]] [] /\
  get_prop bare_profile "displayName" = VUndefined /\
  get_prop (legacy_profile (VStr bare_body) bare_json) "emails" = VArr [] [] /\
  get_prop (legacy_profile (VStr bare_body) bare_json) "photos"
  = VArr [VObj [("value", VStr EmptyString)]] [].
Proof.
  destruct (absent_fields JSON_parse_text (VStr bare_body) bare_json eq_refl)
    as (Hex & Hc & Hl).
  split; [apply Hex; reflexivity|].
  destruct (Hc [] bare_profile eq_refl) as (Hph & _ & Hem & Hdn).
  destruct (Hl [] (legacy_profile (VStr bare_body) bare_json) eq_refl)
    as (_ & _ & Hle & Hlp & _).
  split; [exact Hph|]. split; [exact Hem|]. split; [exact Hdn|].
  split; [apply Hle; reflexivity | apply Hlp; reflexivity].
Defined.

(** C8, as stated, fails in lib/Strategy.js: for the response with [user_id]
    only, [emails] is not empty, and [undefined] stands at [emails[0].value]
    and at [displayName]. *)
Lemma absent_email_is_undefined :
  JSON_parse_text (VStr bare_body) = Some bare_json /\
  get_prop bare_json "email" = VUndefined /\
  get_prop bare_json "name" = VUndefined /\
  Current.normalize JSON_parse_text (VStr bare_body) = ([], Ret bare_profile) /\
  is_empty_array (get_prop bare_profile "emails") = false /\
  get_prop bare_profile "emails" = VArr [VObj [("value", VUndefined)]] [] /\
  get_prop bare_profile "displayName" = VUndefined /\
  has_nullish bare_profile = true.
Proof. repeat split. Qed.

(** In the older copy it fails on [photos], which is never empty. *)
Example absent_image_legacy :
  exists l,
    Legacy.normalize JSON_parse_text (VStr bare_body) = ([], Ret l) /\
    get_prop l "photos" = VArr [VObj [("value", VStr EmptyString)]] [] /\
    get_prop l "id" = VUndefined.
Proof. eexists. repeat split. Qed.

(** ** The two copies *)

(** C9.  The two normalizations are different functions.  On the response
    that has the fields of both schemas they give profiles that differ in
    [id] ([user_id] against the native [id]), in [displayName], in [name],
    in [emails] and in [photos]. *)
Theorem copies_differ :
  ~ (forall JSON_parse body,
       Current.normalize JSON_parse body = Legacy.normalize JSON_parse body) /\
  (forall JSON_parse body,
     JSON_parse body = Some both_json ->
     exists p l,
       Current.normalize JSON_parse body = ([], Ret p) /\
       Legacy.normalize JSON_parse body = ([], Ret l) /\
       p <> l /\
       get_prop p "id" = VStr "amzn1.account.K2LI23KL2LK2" /\
       get_prop l "id" = VStr "native-id" /\
       get_prop p "displayName" <> get_prop l "displayName" /\
       get_prop p "name"
       = VObj [("familyName", VStr EmptyString); ("givenName", VStr EmptyString)] /\
       get_prop l "name"
       = VObj [("familyName", VStr "Doe"); ("givenName", VStr "Jane")] /\
       get_prop p "emails" = VArr [VObj [("value", VStr "jane@example.com")]] [] /\
       get_prop l "emails" = VArr [] [] /\
       get_prop p "photos" = VArr [] [] /\
       get_prop l "photos"
       = VArr [VObj [("value", VStr "http://example.com/jane.png")]] []).
Proof.
  split.
  - intros H. specialize (H JSON_parse_text (VStr jane_body)).
    vm_compute in H. discriminate H.
  - intros JSON_parse body Hp.
    exists (current_profile body both_json), (legacy_profile body both_json).
    rewrite current_normalize, legacy_normalize, Hp.
    repeat split; try discriminate.
Qed.

Lemma copies_differ_witness :
  exists p l,
    Current.normalize JSON_parse_text (VStr both_body) = ([], Ret p) /\
    Legacy.normalize JSON_parse_text (VStr both_body) = ([], Ret l) /\
    p <> l.
Proof.
  destruct (proj2 copies_differ JSON_parse_text (VStr both_body) eq_refl)
    as (p & l & Hc & Hl & Hne & _).
  exists p, l. repeat split; assumption.
Defined.

(** * The rest of the strategy *)

(** ** Traces of the building blocks *)


Lemma outcome_bind {A B} (m : M A) (f : A -> M B) :
  outcome_of (bind m f)
  = match outcome_of m with
    | Ret a => outcome_of (f a)
    | Throw e => Throw e
    end.
Proof. destruct m as [t [a|e]]; simpl; [destruct (f a)|]; reflexivity. Qed.


Lemma outcome_try {A} (m : M A) (h : value -> M A) :
  outcome_of (try_catch m h)
  = match outcome_of m with
    | Ret a => Ret a
    | Throw e => outcome_of (h e)
    end.
Proof. destruct m as [t [a|e]]; simpl; [|destruct (h e)]; reflexivity. Qed.

Lemma verified_event (err user info : value) :
  verified err user info = ([outcome_for (err, user, info)], Ret tt).
Proof.
  unfold verified, outcome_for, error, fail, success, emit.
  destruct (truthy err); [|destruct (truthy user)]; reflexivity.
Qed.

Lemma invoke_verified (calls : list (value * value * value)) :
  invoke verified calls = (map outcome_for calls, Ret tt).
Proof.
  induction calls as [|[[e u] i] rest IH]; [reflexivity|].
  cbn [invoke map]. now rewrite IH, verified_event.
Qed.

Lemma call_verify_eq (self : Strategy) (args : verify_args) :
  call_verify self args verified
  = (Verify args :: map outcome_for (fst (_verify self args)),
     match snd (_verify self args) with
     | Some e => Throw e
     | None => Ret tt
     end).
Proof.
  unfold call_verify. destruct (_verify self args) as [calls thrown].
  rewrite invoke_verified. destruct thrown; simpl; now rewrite ?app_nil_r.
Qed.

Lemma loaded_eq (self : Strategy) (req : request) (err profile : value) :
  loaded self req err profile
  = if truthy err then ([Error err], Ret tt)
    else (Verify (args_for self req profile)
            :: map outcome_for (fst (_verify self (args_for self req profile))),
          match snd (_verify self (args_for self req profile)) with
          | Some e => Throw e
          | None => Ret tt
          end).
Proof.
  unfold loaded. destruct (truthy err); [reflexivity|]. apply call_verify_eq.
Qed.

(** ** [authenticate] in terms of the callback of [_oauth2.get] *)

Lemma current_authenticate_eq (JSON_parse : value -> option value)
    (self : Strategy) (req : request) :
  Current.authenticate JSON_parse self req
  = if truthy (accessToken_of req)
    then emit (Get (_profileURL self) (accessToken_of req)) ;;;
         Current.on_response JSON_parse (loaded self req)
           (fst (reply (_oauth2 self) (_profileURL self) (accessToken_of req)))
           (snd (reply (_oauth2 self) (_profileURL self) (accessToken_of req)))
    else fail missing_token.
Proof.
  unfold Current.authenticate, authenticate, _loadUserProfile, Current.userProfile,
    oauth2_get, loaded, args_for.
  destruct (truthy (accessToken_of req)); [|reflexivity]. cbn [negb].
  destruct (reply (_oauth2 self) (_profileURL self) (accessToken_of req)) as [err body].
  destruct (truthy (_passReqToCallback self)); reflexivity.
Qed.

Lemma legacy_authenticate_eq (JSON_parse : value -> option value)
    (self : Strategy) (req : request) :
  Legacy.authenticate JSON_parse self req
  = if truthy (accessToken_of req)
    then emit (Get fixed_profile_url (accessToken_of req)) ;;;
         Legacy.on_response JSON_parse (loaded self req)
           (fst (reply (_oauth2 self) fixed_profile_url (accessToken_of req)))
           (snd (reply (_oauth2 self) fixed_profile_url (accessToken_of req)))
    else fail missing_token.
Proof.
  unfold Legacy.authenticate, authenticate, _loadUserProfile, Legacy.userProfile,
    oauth2_get, loaded, args_for, fixed_profile_url.
  destruct (truthy (accessToken_of req)); [|reflexivity]. cbn [negb].
  destruct (reply (_oauth2 self) (VStr "https://api.amazon.com/user/profile")
              (accessToken_of req)) as [err body].
  destruct (truthy (_passReqToCallback self)); reflexivity.
Qed.

Lemma current_responds (JSON_parse : value -> option value)
    (done : value -> value -> M unit) (err body : value) :
  responds done (fetched JSON_parse current_profile err body)
    (Current.on_response JSON_parse done err body).
Proof.
  unfold fetched. destruct (truthy err) eqn:Et.
  - rewrite current_on_failure by exact Et.
    destruct (JSON_parse (get_prop err "data")) as [j|];
      [destruct (nullish j)|]; now constructor.
  - rewrite current_on_success by exact Et.
    destruct (JSON_parse body) as [j|]; [destruct (nullish j)|]; now constructor.
Qed.

Lemma legacy_responds (JSON_parse : value -> option value)
    (done : value -> value -> M unit) (err body : value) :
  responds done (fetched JSON_parse legacy_profile err body)
    (Legacy.on_response JSON_parse done err body).
Proof.
  unfold fetched. destruct (truthy err) eqn:Et.
  - unfold Legacy.on_response. rewrite Et. now constructor.
  - rewrite legacy_on_success by exact Et.
    destruct (JSON_parse body) as [j|]; [destruct (nullish j)|]; now constructor.
Qed.


Lemma outcome_after_get {A} (url token : value) (m : M A) :
  outcome_of (emit (Get url token) ;;; m) = outcome_of m.
Proof. now rewrite outcome_bind. Qed.



(** ** Whatever holds of every call of [done] holds of the whole response *)

Section Responds.

Variable P : event -> Prop.
Variable done : value -> value -> M unit.
Variable ok : option value.


Lemma responds_returns (m : M unit) :
  responds done ok m ->
  (forall e p, outcome_of (done e p) = Ret tt) ->
  outcome_of m = Ret tt.
Proof.
  intros Hm Hd. destruct Hm as [x Hx | x y Hx Hy | p Hp];
    rewrite ?outcome_try, Hd; reflexivity.
Qed.

End Responds.








Lemma loaded_returns (self : Strategy) (req : request) (e p : value) :
  never_throws (_verify self) -> outcome_of (loaded self req e p) = Ret tt.
Proof.
  intros H. rewrite loaded_eq. destruct (truthy e); [reflexivity|].
  cbn [outcome_of snd]. now rewrite H.
Qed.

(** X3.  No exception leaves [authenticate] unless the verify callback itself
    throws: a response that is not JSON, a response [null], an error payload
    of any kind all end in a normal return, however often the verify
    callback invokes its continuation.  In both copies. *)
Theorem no_exception_escapes (JSON_parse : value -> option value)
    (self : Strategy) (req : request) :
  never_throws (_verify self) ->
  outcome_of (Current.authenticate JSON_parse self req) = Ret tt /\
  outcome_of (Legacy.authenticate JSON_parse self req) = Ret tt.
Proof.
  intros H. rewrite current_authenticate_eq, legacy_authenticate_eq.
  destruct (truthy (accessToken_of req)); [|split; reflexivity].
  rewrite !outcome_after_get.
  split; (eapply responds_returns;
            [first [apply current_responds | apply legacy_responds]|]);
    intros; now apply loaded_returns.
Qed.

Lemma no_exception_escapes_witness :
  outcome_of (Current.authenticate JSON_parse_text
                (Current.AmazonTokenStrategy sample_options twice
                   (answering_net "<html>not json</html>"))
                token_request) = Ret tt /\
  outcome_of (Legacy.authenticate JSON_parse_text
                (Current.AmazonTokenStrategy sample_options twice
                   (answering_net "<html>not json</html>"))
                token_request) = Ret tt.
Proof.
  apply (no_exception_escapes JSON_parse_text
           (Current.AmazonTokenStrategy sample_options twice
              (answering_net "<html>not json</html>"))
           token_request).
  intros args. reflexivity.
Defined.






(** ** The paths through [authenticate] *)

(** X5.  When the profile is fetched and the verify callback does not throw,
    [authenticate] requests the profile, calls the verify callback once with
    the tokens and the profile, and reports one outcome for each invocation
    the callback makes of its continuation, in the order made: none if it
    makes none, several if it makes several. *)
Theorem fetched_and_verified (JSON_parse : value -> option value)
    (self : Strategy) (req : request) (err body json : value) :
  truthy (accessToken_of req) = true ->
  reply (_oauth2 self) (_profileURL self) (accessToken_of req) = (err, body) ->
  truthy err = false ->
  JSON_parse body = Some json ->
  nullish json = false ->
  snd (_verify self (args_for self req (current_profile body json))) = None ->
  Current.authenticate JSON_parse self req
  = (Get (_profileURL self) (accessToken_of req)
       :: Verify (args_for self req (current_profile body json))
       :: map outcome_for
            (fst (_verify self (args_for self req (current_profile body json)))),
     Ret tt).
Proof.
  intros Htok Hr He Hj Hn Hv.
  rewrite current_authenticate_eq, Htok, Hr. cbn [fst snd].
  rewrite current_on_success by exact He. rewrite Hj, Hn.
  rewrite (loaded_eq self req VNull). cbn [truthy]. rewrite Hv. reflexivity.
Qed.

Lemma fetched_and_verified_witness :
  Current.authenticate JSON_parse_text
    (Current.AmazonTokenStrategy req_options twice jane_net) three_tokens
  = ([Get (VStr "https://api.example.com/profile") (VStr "from-body");
      Verify (WithReq three_tokens (VStr "from-body") (VStr "refresh-from-query")
                jane_profile);
      Success (VBool true) VUndefined;
      Success (VBool true) VUndefined], Ret tt).
Proof.
  apply (fetched_and_verified JSON_parse_text
           (Current.AmazonTokenStrategy req_options twice jane_net) three_tokens
           VNull (VStr jane_body) jane_json); reflexivity.
Defined.

(** X6.  An exception of the verify callback is caught by the [try] around
    [done(null, profile)] in [userProfile]: when the callback throws a truthy
    value, then after the outcomes of the invocations it made before
    throwing, [authenticate] reports [error] with the thrown value and
    returns normally. *)
Theorem verify_exception_reported (JSON_parse : value -> option value)
    (self : Strategy) (req : request) (err body json e : value) :
  truthy (accessToken_of req) = true ->
  reply (_oauth2 self) (_profileURL self) (accessToken_of req) = (err, body) ->
  truthy err = false ->
  JSON_parse body = Some json ->
  nullish json = false ->
  snd (_verify self (args_for self req (current_profile body json))) = Some e ->
  truthy e = true ->
  Current.authenticate JSON_parse self req
  = (Get (_profileURL self) (accessToken_of req)
       :: Verify (args_for self req (current_profile body json))
       :: map outcome_for
            (fst (_verify self (args_for self req (current_profile body json))))
       ++ [Error e],
     Ret tt).
Proof.
  intros Htok Hr He Hj Hn Hv Hthrown.
  rewrite current_authenticate_eq, Htok, Hr. cbn [fst snd].
  rewrite current_on_success by exact He. rewrite Hj, Hn.
  rewrite (loaded_eq self req VNull). cbn [truthy]. rewrite Hv.
  cbn [try_catch]. rewrite (loaded_eq self req e), Hthrown. reflexivity.
Qed.

Lemma verify_exception_reported_witness :
  Current.authenticate JSON_parse_text
    (jane_strategy (accept_then_throw VTypeError)) token_request
  = ([Get (VStr "https://api.amazon.com/user/profile") (VStr "tok");
      Verify (WithoutReq (VStr "tok") VUndefined jane_profile);
      Success (VBool true) VUndefined;
      Error VTypeError], Ret tt).
Proof.
  apply (verify_exception_reported JSON_parse_text
           (jane_strategy (accept_then_throw VTypeError)) token_request
           VNull (VStr jane_body) jane_json VTypeError); reflexivity.
Defined.

(** X7.  A response body that is not JSON makes [authenticate] report
    [error] with the [SyntaxError] of [JSON.parse], and a body that parses
    to [null] makes it report [error] with the [TypeError] of the property
    read; in both cases after the one request and without calling the verify
    callback.  In both copies. *)
Theorem malformed_response (JSON_parse : value -> option value)
    (self : Strategy) (req : request) :
  truthy (accessToken_of req) = true ->
  (forall err body,
     reply (_oauth2 self) (_profileURL self) (accessToken_of req) = (err, body) ->
     truthy err = false ->
     (JSON_parse body = None ->
      Current.authenticate JSON_parse self req
      = ([Get (_profileURL self) (accessToken_of req); Error VSyntaxError], Ret tt)) /\
     (forall json, JSON_parse body = Some json -> nullish json = true ->
      Current.authenticate JSON_parse self req
      = ([Get (_profileURL self) (accessToken_of req); Error VTypeError], Ret tt))) /\
  (forall err body,
     reply (_oauth2 self) fixed_profile_url (accessToken_of req) = (err, body) ->
     truthy err = false ->
     (JSON_parse body = None ->
      Legacy.authenticate JSON_parse self req
      = ([Get fixed_profile_url (accessToken_of req); Error VSyntaxError], Ret tt)) /\
     (forall json, JSON_parse body = Some json -> nullish json = true ->
      Legacy.authenticate JSON_parse self req
      = ([Get fixed_profile_url (accessToken_of req); Error VTypeError], Ret tt))).
Proof.
  intros Htok. split; intros err body Hr He.
  - rewrite current_authenticate_eq, Htok, Hr. cbn [fst snd].
    rewrite current_on_success by exact He.
    split; [intros Hj | intros json Hj Hn]; rewrite Hj, ?Hn; reflexivity.
  - rewrite legacy_authenticate_eq, Htok, Hr. cbn [fst snd].
    rewrite legacy_on_success by exact He.
    split; [intros Hj | intros json Hj Hn]; rewrite Hj, ?Hn; reflexivity.
Qed.

Lemma malformed_response_witness :
  Current.authenticate JSON_parse_text
    (Current.AmazonTokenStrategy sample_options accept_profile (answering_net not_json))
    token_request
  = ([Get (VStr "https://api.amazon.com/user/profile") (VStr "tok");
      Error VSyntaxError], Ret tt) /\
  Legacy.authenticate JSON_parse_text
    (legacy_strategy accept_profile (answering_net "null")) token_request
  = ([Get fixed_profile_url (VStr "tok"); Error VTypeError], Ret tt).
Proof.
  split.
  - apply (proj1 (malformed_response JSON_parse_text
                    (Current.AmazonTokenStrategy sample_options accept_profile
                       (answering_net not_json))
                    token_request eq_refl)
             VNull (VStr not_json) eq_refl eq_refl).
    reflexivity.
  - apply (proj2 (malformed_response JSON_parse_text
                    (legacy_strategy accept_profile (answering_net "null"))
                    token_request eq_refl)
             VNull (VStr "null") eq_refl eq_refl) with (json := VNull);
      reflexivity.
Defined.

(** ** The older copy *)

(** X8.  The older copy does not read the payload of a transport failure:
    whatever the payload and however it parses, [authenticate] reports
    [error] with [InternalOAuthError('Failed to fetch user profile', err)]
    wrapping the client's error, after the one request to the URL written
    into it, and the verify callback is not called. *)
Theorem legacy_transport_failure (JSON_parse : value -> option value)
    (self : Strategy) (req : request) (err body : value) :
  truthy (accessToken_of req) = true ->
  reply (_oauth2 self) fixed_profile_url (accessToken_of req) = (err, body) ->
  truthy err = true ->
  Legacy.authenticate JSON_parse self req
  = ([Get (VStr "https://api.amazon.com/user/profile") (accessToken_of req);
      Error (VInternalOAuthError (VStr "Failed to fetch user profile") err)],
     Ret tt).
Proof.
  intros Htok Hr He.
  rewrite legacy_authenticate_eq, Htok, Hr. cbn [fst snd].
  unfold Legacy.on_response. rewrite He. reflexivity.
Qed.

Lemma legacy_transport_failure_witness :
  Legacy.authenticate JSON_parse_text
    (legacy_strategy accept_profile (fun _ _ => (invalid_token_error, VUndefined)))
    token_request
  = ([Get (VStr "https://api.amazon.com/user/profile") (VStr "tok");
      Error (VInternalOAuthError (VStr "Failed to fetch user profile")
               invalid_token_error)],
     Ret tt).
Proof.
  apply (legacy_transport_failure JSON_parse_text
           (legacy_strategy accept_profile (fun _ _ => (invalid_token_error, VUndefined)))
           token_request invalid_token_error VUndefined); reflexivity.
Defined.

(** X9.  The main path of the older copy: when the profile is fetched and
    the verify callback does not throw, [authenticate] requests the fixed
    URL, calls the verify callback once with the tokens and the profile in
    the older schema, and reports one outcome for each invocation of the
    continuation. *)
Theorem legacy_fetched_and_verified (JSON_parse : value -> option value)
    (self : Strategy) (req : request) (err body json : value) :
  truthy (accessToken_of req) = true ->
  reply (_oauth2 self) fixed_profile_url (accessToken_of req) = (err, body) ->
  truthy err = false ->
  JSON_parse body = Some json ->
  nullish json = false ->
  snd (_verify self (args_for self req (legacy_profile body json))) = None ->
  Legacy.authenticate JSON_parse self req
  = (Get (VStr "https://api.amazon.com/user/profile") (accessToken_of req)
       :: Verify (args_for self req (legacy_profile body json))
       :: map outcome_for
            (fst (_verify self (args_for self req (legacy_profile body json)))),
     Ret tt).
Proof.
  intros Htok Hr He Hj Hn Hv.
  rewrite legacy_authenticate_eq, Htok, Hr. cbn [fst snd].
  rewrite legacy_on_success by exact He. rewrite Hj, Hn.
  rewrite (loaded_eq self req VNull). cbn [truthy]. rewrite Hv. reflexivity.
Qed.

Lemma legacy_fetched_and_verified_witness :
  Legacy.authenticate JSON_parse_text
    (legacy_strategy accept_profile (answering_net older_body)) token_request
  = ([Get (VStr "https://api.amazon.com/user/profile") (VStr "tok");
      Verify (WithoutReq (VStr "tok") VUndefined
                (legacy_profile (VStr older_body) older_json));
      Success (legacy_profile (VStr older_body) older_json) VUndefined], Ret tt).
Proof.
  apply (legacy_fetched_and_verified JSON_parse_text
           (legacy_strategy accept_profile (answering_net older_body)) token_request
           VNull (VStr older_body) older_json); reflexivity.
Defined.





(** ** lib/Strategy.js: what is kept of the response *)

Lemma get_set_other (v x : value) (k k' : string) :
  k <> k' -> get_prop (set_prop v k x) k' = get_prop v k'.
Proof.
  intros Hne. destruct v; try reflexivity; simpl; unfold own;
    now rewrite lookup_assign_other.
Qed.

(** X11.  In lib/Strategy.js the profile keeps the response: [_raw] is the
    body as received, and [_json] is the parsed response with every property
    other than [id] as the provider sent it. *)
Theorem response_kept (JSON_parse : value -> option value) (body json : value) :
  JSON_parse body = Some json ->
  forall t p,
    Current.normalize JSON_parse body = (t, Ret p) ->
    get_prop p "provider" = VStr "amazon" /\
    get_prop p "_raw" = body /\
    (forall k, k <> "id" -> get_prop (get_prop p "_json") k = get_prop json k).
Proof.
  intros Hp t p. rewrite current_normalize, Hp.
  destruct (nullish json); [discriminate|].
  intros H. injection H as _ <-.
  split; [reflexivity|]. split; [reflexivity|].
  intros k Hk. apply get_set_other. congruence.
Qed.

Lemma response_kept_witness :
  get_prop (current_profile (VStr both_body) both_json) "_raw" = VStr both_body /\
  get_prop (get_prop (current_profile (VStr both_body) both_json) "_json") "image"
  = VObj [("url", VStr "http://example.com/jane.png")].
Proof.
  destruct (response_kept JSON_parse_text (VStr both_body) both_json eq_refl
              [] (current_profile (VStr both_body) both_json) eq_refl)
    as (_ & Hraw & Hjson).
  split; [exact Hraw|].
  rewrite (Hjson "image"); [reflexivity | discriminate].
Defined.

(** ** The constructor *)

Lemma get_set_same_object (props : list (string * value)) (k : string) (x : value) :
  get_prop (set_prop (VObj props) k x) k = x.
Proof. simpl. unfold own. now rewrite lookup_assign_same. Qed.

Lemma set_object (props : list (string * value)) (k : string) (x : value) :
  set_prop (VObj props) k x = VObj (assign k x props).
Proof. reflexivity. Qed.

(** X12.  The strategy the constructor of lib/Strategy.js builds from an
    options object: its name is [amazon-token]; its profile URL is the
    [profileURL] option when that is truthy and
    [https://api.amazon.com/user/profile] otherwise; [_passReqToCallback] is
    the option as given, untouched by the defaulting of the URLs; the OAuth2
    client is set to send the token in the Authorization header.  Options
    that are absent (falsy) count as the empty object. *)
Theorem constructed_strategy (props : list (string * value))
    (verify : verify_callback) (net : value -> value -> value * value) :
  name (Current.AmazonTokenStrategy (VObj props) verify net) = "amazon-token" /\
  _profileURL (Current.AmazonTokenStrategy (VObj props) verify net)
  = or_else (own "profileURL" props) (VStr "https://api.amazon.com/user/profile") /\
  _passReqToCallback (Current.AmazonTokenStrategy (VObj props) verify net)
  = own "passReqToCallback" props /\
  _useAuthorizationHeaderForGET
    (_oauth2 (Current.AmazonTokenStrategy (VObj props) verify net)) = true /\
  _verify (Current.AmazonTokenStrategy (VObj props) verify net) = verify /\
  (forall o, truthy o = false ->
     Current.AmazonTokenStrategy o verify net
     = Current.AmazonTokenStrategy (VObj []) verify net).
Proof.
  assert (Hfalsy : forall o, truthy o = false ->
            Current.AmazonTokenStrategy o verify net
            = Current.AmazonTokenStrategy (VObj []) verify net).
  { intros o Ho. unfold Current.AmazonTokenStrategy.
    replace (or_else o (VObj [])) with (VObj []); [reflexivity|].
    unfold or_else. now rewrite Ho. }
  unfold Current.AmazonTokenStrategy in *.
  replace (or_else (VObj props) (VObj [])) with (VObj props) by reflexivity.
  cbn [name _profileURL _passReqToCallback _oauth2 _useAuthorizationHeaderForGET _verify].
  rewrite !set_object.
  split; [reflexivity|].
  split; [|split; [|split; [reflexivity|split; [reflexivity|exact Hfalsy]]]].
  - rewrite <- set_object, get_set_same_object.
    cbn [get_prop]. unfold own.
    now rewrite !lookup_assign_other by discriminate.
  - cbn [get_prop]. unfold own. now rewrite !lookup_assign_other by discriminate.
Qed.

Lemma constructed_strategy_witness :
  Current.AmazonTokenStrategy VUndefined accept_profile jane_net
  = Current.AmazonTokenStrategy (VObj []) accept_profile jane_net /\
  _profileURL (Current.AmazonTokenStrategy req_options accept_profile jane_net)
  = VStr "https://api.example.com/profile".
Proof.
  split.
  - apply (constructed_strategy [] accept_profile jane_net). reflexivity.
  - destruct (constructed_strategy
                [("clientID", VStr "123-456-789");
                 ("clientSecret", VStr "shhh-its-a-secret");
                 ("passReqToCallback", VBool true);
                 ("profileURL", VStr "https://api.example.com/profile")]
                accept_profile jane_net) as (_ & Hurl & _).
    exact Hurl.
Defined.

(** X13.  The authorization and token URLs the constructor hands to the
    OAuth2 client are the options' own when truthy, and otherwise
    [https://www.amazon.com/ap/oa] and, for the token URL,
    [https://api.amazon.com/auth/o2/token] in lib/Strategy.js and
    [https://api.amazon.com/auth/O2/token] in the older copy; a
    [profileURL] option has no effect on the older copy, whose strategy has
    no profile URL of its own. *)
Theorem client_urls (props : list (string * value))
    (verify : verify_callback) (net : value -> value -> value * value) :
  _authorizeUrl (_oauth2 (Current.AmazonTokenStrategy (VObj props) verify net))
  = or_else (own "authorizationURL" props) (VStr "https://www.amazon.com/ap/oa") /\
  _accessTokenUrl (_oauth2 (Current.AmazonTokenStrategy (VObj props) verify net))
  = or_else (own "tokenURL" props) (VStr "https://api.amazon.com/auth/o2/token") /\
  _authorizeUrl (_oauth2 (Legacy.AmazonTokenStrategy (VObj props) verify net))
  = or_else (own "authorizationURL" props) (VStr "https://www.amazon.com/ap/oa") /\
  _accessTokenUrl (_oauth2 (Legacy.AmazonTokenStrategy (VObj props) verify net))
  = or_else (own "tokenURL" props) (VStr "https://api.amazon.com/auth/O2/token") /\
  _profileURL (Legacy.AmazonTokenStrategy (VObj props) verify net) = VUndefined /\
  _passReqToCallback (Legacy.AmazonTokenStrategy (VObj props) verify net)
  = own "passReqToCallback" props.
Proof.
  unfold Current.AmazonTokenStrategy, Legacy.AmazonTokenStrategy.
  replace (or_else (VObj props) (VObj [])) with (VObj props) by reflexivity.
  cbn [_profileURL _passReqToCallback _oauth2 _authorizeUrl _accessTokenUrl].
  rewrite !set_object. cbn [get_prop]. unfold own.
  repeat split;
    rewrite ?lookup_assign_other by discriminate;
    rewrite ?lookup_assign_same;
    rewrite ?lookup_assign_other by discriminate;
    reflexivity.
Qed.

(** ** A falsy exception *)

(** X14.  When the verify callback throws a falsy value ([undefined], [null],
    [0], the empty string), the handler's [done(e)] is taken by
    [authenticate] for a fetched profile: no [error] is reported for the
    exception, and the verify callback is called a second time, with the
    same tokens and an [undefined] profile; what that second call reports
    and throws is what [authenticate] ends with. *)
Theorem falsy_exception_calls_verify_again (JSON_parse : value -> option value)
    (self : Strategy) (req : request) (err body json e : value) :
  truthy (accessToken_of req) = true ->
  reply (_oauth2 self) (_profileURL self) (accessToken_of req) = (err, body) ->
  truthy err = false ->
  JSON_parse body = Some json ->
  nullish json = false ->
  snd (_verify self (args_for self req (current_profile body json))) = Some e ->
  truthy e = false ->
  Current.authenticate JSON_parse self req
  = (Get (_profileURL self) (accessToken_of req)
       :: Verify (args_for self req (current_profile body json))
       :: map outcome_for
            (fst (_verify self (args_for self req (current_profile body json))))
       ++ Verify (args_for self req VUndefined)
       :: map outcome_for (fst (_verify self (args_for self req VUndefined))),
     match snd (_verify self (args_for self req VUndefined)) with
     | Some e' => Throw e'
     | None => Ret tt
     end).
Proof.
  intros Htok Hr He Hj Hn Hv Hthrown.
  rewrite current_authenticate_eq, Htok, Hr. cbn [fst snd].
  rewrite current_on_success by exact He. rewrite Hj, Hn.
  rewrite (loaded_eq self req VNull). cbn [truthy]. rewrite Hv.
  cbn [try_catch]. rewrite (loaded_eq self req e), Hthrown. reflexivity.
Qed.

Lemma falsy_exception_calls_verify_again_witness :
  Current.authenticate JSON_parse_text (jane_strategy throw_null_on_profile) token_request
  = ([Get (VStr "https://api.amazon.com/user/profile") (VStr "tok");
      Verify (WithoutReq (VStr "tok") VUndefined jane_profile);
      Verify (WithoutReq (VStr "tok") VUndefined VUndefined);
      Fail VUndefined], Ret tt).
Proof.
  apply (falsy_exception_calls_verify_again JSON_parse_text
           (jane_strategy throw_null_on_profile) token_request
           VNull (VStr jane_body) jane_json VNull); reflexivity.
Defined.
